(** * Knowledge Bot: the query-embed-retrieve pipeline

    A shallow embedding of [knowledge_bot.py], [utils/oracle_db.py],
    [utils/oci_embedding.py] and [utils/oci_chat.py].

    Python functions become functions in a small monad that threads the
    durable tables of the database and collects the externally visible
    events (log records, hosted-service calls, SQL statements, widgets).
    Everything that lives outside the repository (the hosted embedding and
    chat endpoints, the database driver, the SQL function [vector_distance],
    [os.getenv], [str] on floats) is a field of the record [External]. *)

From Stdlib Require Import List String Ascii Bool ZArith QArith Lia.
From Stdlib Require Import DecimalString.
From Stdlib Require Import Permutation Sorted Orders Mergesort.
Import ListNotations.

Local Open Scope list_scope.

(** ** Python values and exceptions *)

(** An instance of a subclass of [Exception]: class name and message.
    Every [except Exception] handler of the sources catches all of them. *)
Inductive PyExc : Type :=
| Exception (cls : string) (msg : string).

(** A value that may be Python's [None]. *)
Definition Optional (A : Type) : Type := option A.

(** An attribute that an object may or may not have ([hasattr]). *)
Definition Attr (A : Type) : Type := option A.

(** A float, as the rational it denotes (finite values only). *)
Definition Float : Type := Q.

Definition Vector : Type := list Float.

(** The outcome of evaluating a Python expression or call. *)
Inductive Result (A : Type) : Type :=
| Return (a : A)
| Raise (e : PyExc).
Arguments Return {A} a.
Arguments Raise {A} e.

(** [x or d] on strings and on optional strings: the empty string and
    [None] are falsy. *)
Definition str_truthy (s : string) : bool :=
  match s with EmptyString => false | String _ _ => true end.

Definition or_str (x : Optional string) (d : string) : string :=
  match x with
  | Some s => if str_truthy s then s else d
  | None => d
  end.

(** [sep.join(items)] *)
Definition str_join (sep : string) (items : list string) : string :=
  String.concat sep items.

(** [s[:n]] *)
Definition str_take (n : nat) (s : string) : string := substring 0 n s.

(** [str(n)] for a length. *)
Definition str_of_nat (n : nat) : string :=
  NilZero.string_of_uint (Nat.to_uint n).

(** A [dict] with string keys, in insertion order; [{**d, k: v}]. *)
Definition Dict (V : Type) : Type := list (string * V).

Fixpoint dict_set {V : Type} (d : Dict V) (k : string) (v : V) : Dict V :=
  match d with
  | [] => [(k, v)]
  | (k', v') :: d' =>
      if String.eqb k' k then (k', v) :: d' else (k', v') :: dict_set d' k v
  end.

Fixpoint dict_get {V : Type} (d : Dict V) (k : string) : Optional V :=
  match d with
  | [] => None
  | (k', v') :: d' => if String.eqb k' k then Some v' else dict_get d' k
  end.

(** ** Data model: the two tables read by the retrieval query *)

Record IngestJob : Type := mkJob {
  job_id : Z;
  object_name : string;
  status : string
}.

Record Chunk : Type := mkChunk {
  c_job_id : Z;
  chunk_id : Z;
  chunk_text : Optional string;
  embed_vector : Optional Vector
}.

Record Tables : Type := mkTables {
  doc_ingest_jobs : list IngestJob;
  doc_chunks : list Chunk
}.

(** ** Events visible outside the process *)

Inductive LogLevel : Type := INFO | WARNING | ERROR.

Inductive StmtKind : Type := Query | PlsqlBlock.

Inductive Widget : Type :=
  StInfo | StWarning | StError | StSubheader | StWrite | StDivider.

(** Bind values of a statement. *)
Inductive BindValue : Type :=
| BindStr (s : string)
| BindInt (n : Z).

(** One search hit, the dict built by [search_chunks_by_doc]. *)
Record QueryResult : Type := mkQueryResult {
  qr_job_id : Z;
  qr_chunk_id : Z;
  qr_chunk_text : string;
  qr_similarity : Optional Float;
  qr_object_name : string
}.

Inductive Event : Type :=
| Log (level : LogLevel) (fmt : string)
| EmbedTextCall (inputs : list string)
| ChatCall (message : string)
| CursorExecute (kind : StmtKind) (text : string) (params : Dict BindValue)
| ConnCommit
| Ui (w : Widget) (text : string)
| UiChunk (index : nat) (c : QueryResult) (code : string).

(** ** The monad: tables in, outcome, tables and emitted events out *)

Definition M (A : Type) : Type := Tables -> Result A * Tables * list Event.

Definition ret {A : Type} (a : A) : M A := fun t => (Return a, t, []).

Definition raise {A : Type} (e : PyExc) : M A := fun t => (Raise e, t, []).

Definition bind {A B : Type} (m : M A) (k : A -> M B) : M B :=
  fun t =>
    match m t with
    | (Return a, t1, ev1) =>
        let '(r, t2, ev2) := k a t1 in (r, t2, ev1 ++ ev2)
    | (Raise e, t1, ev1) => (Raise e, t1, ev1)
    end.

(** [try: body  except Exception as e: handler e] *)
Definition try_except {A : Type} (body : M A) (handler : PyExc -> M A) : M A :=
  fun t =>
    match body t with
    | (Return a, t1, ev1) => (Return a, t1, ev1)
    | (Raise e, t1, ev1) =>
        let '(r, t2, ev2) := handler e t1 in (r, t2, ev1 ++ ev2)
    end.

Definition emit (ev : Event) : M unit := fun t => (Return tt, t, [ev]).

Definition lift {A : Type} (r : Result A) : M A := fun t => (r, t, []).

Definition get_tables : M Tables := fun t => (Return t, t, []).

Definition put_tables (t' : Tables) : M unit := fun _ => (Return tt, t', []).

Declare Scope py_scope.
Delimit Scope py_scope with py.
Notation "x <- m ;; k" := (bind m (fun x => k))
  (at level 61, m at next level, right associativity) : py_scope.
Notation "m ;; k" := (bind m (fun _ => k))
  (at level 61, right associativity) : py_scope.
Local Open Scope py_scope.

Definition outcome {A : Type} (x : Result A * Tables * list Event) : Result A :=
  fst (fst x).
Definition tables_after {A : Type} (x : Result A * Tables * list Event) : Tables :=
  snd (fst x).
Definition events {A : Type} (x : Result A * Tables * list Event) : list Event :=
  snd x.

(** [logger.info / warning / error] *)
Definition logger (level : LogLevel) (fmt : string) : M unit :=
  emit (Log level fmt).

(** ** Hosted inference service: requests and response shapes *)

(** An OCI configuration ([oci.config.from_file()]). *)
Definition Config : Type := Dict string.

Record Client : Type := mkClient { client_config : Config }.

Record EmbedTextDetails : Type := mkEmbedTextDetails {
  etd_compartment_id : Optional string;
  etd_model_id : string;
  etd_inputs : list string;
  etd_input_type : string
}.

(** [response.data], which may have an attribute [embeddings]. *)
Record EmbedData : Type := mkEmbedData {
  data_embeddings : Attr (Optional (list Vector))
}.

Record EmbedResponse : Type := mkEmbedResponse {
  er_data : Attr EmbedData;
  er_embeddings : Attr (Optional (list Vector))
}.

Record ChatDetails : Type := mkChatDetails {
  cd_compartment_id : Optional string;
  cd_model_id : string;
  cd_message : string;
  cd_max_tokens : Z;
  cd_temperature : Float
}.

(** [chat_resp.message], which may have an attribute [content]. *)
Record ChatMessage : Type := mkChatMessage {
  message_content : Attr (Optional string)
}.

Record ChatResp : Type := mkChatResp {
  cr_message : Attr ChatMessage;
  cr_content : Attr (Optional string);
  cr_text : Attr (Optional string)
}.

Record ChatData : Type := mkChatData {
  data_chat_response : Attr ChatResp;
  data_content : Attr (Optional string)
}.

Record ChatResponse : Type := mkChatResponse {
  resp_data : Attr ChatData;
  resp_content : Attr (Optional string)
}.

(** ** What lies outside the repository *)

Record External : Type := mkExternal {
  (** [os.getenv] *)
  getenv : string -> Optional string;
  (** [str] on a float *)
  float_str : Float -> string;
  (** [oci.config.from_file()] *)
  oci_config_from_file : Result Config;
  (** [GenerativeAiInferenceClient(client_config)] *)
  new_inference_client : Config -> Result Client;
  (** [client.embed_text(details)] *)
  embed_text : Client -> EmbedTextDetails -> Result EmbedResponse;
  (** [client.chat(details)] *)
  chat : Client -> ChatDetails -> Result ChatResponse;
  (** [pool.acquire()] failing before the statement with this text runs *)
  acquire_fault : string -> option PyExc;
  (** [cursor.execute] failing in the driver for the statement with this text *)
  execute_fault : string -> option PyExc;
  (** SQL [vector_distance(v, TO_VECTOR(literal), COSINE)] *)
  vector_distance : Vector -> string -> Result Float;
  (** the effect of an anonymous PL/SQL block on the tables *)
  run_plsql : string -> Dict BindValue -> Tables -> Result Tables
}.

(** ** utils/oracle_db.py *)

(** A statement handed to [cursor.execute]: its text, its bind values,
    and for a query the rows it denotes over the tables. *)
Inductive Statement (R : Type) : Type :=
| Select (text : string) (params : Dict BindValue)
         (rows : Tables -> Result (list R))
| Block (text : string) (params : Dict BindValue).
Arguments Select {R} text params rows.
Arguments Block {R} text params.

Definition stmt_text {R : Type} (s : Statement R) : string :=
  match s with Select text _ _ => text | Block text _ => text end.

Definition stmt_params {R : Type} (s : Statement R) : Dict BindValue :=
  match s with Select _ params _ => params | Block _ params => params end.

Definition stmt_kind {R : Type} (s : Statement R) : StmtKind :=
  match s with Select _ _ _ => Query | Block _ _ => PlsqlBlock end.

(** What [execute_query] hands back: [cursor.fetchone()], [cursor.fetchall()]
    or [None]. *)
Inductive Fetched (R : Type) : Type :=
| FetchedOne (row : Optional R)
| FetchedAll (rows : list R)
| FetchedNone.
Arguments FetchedOne {R} row.
Arguments FetchedAll {R} rows.
Arguments FetchedNone {R}.

Definition not_a_query : PyExc :=
  Exception "InterfaceError" "the executed statement does not return rows".

Section Database.

Variable ext : External.

(** [cursor.execute(query, params or {})] on a connection whose view of
    the data is [session]: the result set (none for a block) and the
    session afterwards.  A query leaves the session as it is. *)
Definition cursor_execute {R : Type} (s : Statement R) (session : Tables)
  : Result (Optional (list R) * Tables) :=
  match execute_fault ext (stmt_text s) with
  | Some e => Raise e
  | None =>
      match s with
      | Select _ _ rows =>
          match rows session with
          | Return l => Return (Some l, session)
          | Raise e => Raise e
          end
      | Block text params =>
          match run_plsql ext text params session with
          | Return session' => Return (None, session')
          | Raise e => Raise e
          end
      end
  end.

(** [cursor.fetchone()] / [cursor.fetchall()] *)
Definition fetchone {R : Type} (rs : Optional (list R)) : Result (Optional R) :=
  match rs with
  | Some l => Return (hd_error l)
  | None => Raise not_a_query
  end.

Definition fetchall {R : Type} (rs : Optional (list R)) : Result (list R) :=
  match rs with
  | Some l => Return l
  | None => Raise not_a_query
  end.

(** [DatabaseManager.execute_query].  The connection is acquired from the
    pool, used, and released in the [finally] clause; what was not
    committed is dropped with it. *)
Definition execute_query {R : Type} (query : Statement R)
    (fetch_one fetch_all commit : bool) : M (Fetched R) :=
  match acquire_fault ext (stmt_text query) with
  | Some e => raise e
  | None =>
      durable <- get_tables ;;
      emit (CursorExecute (stmt_kind query) (stmt_text query) (stmt_params query)) ;;
      x <- lift (cursor_execute query durable) ;;
      (if commit then emit ConnCommit ;; put_tables (snd x) else ret tt) ;;
      if fetch_one then
        row <- lift (fetchone (fst x)) ;; ret (FetchedOne row)
      else if fetch_all then
        rows <- lift (fetchall (fst x)) ;; ret (FetchedAll rows)
      else ret FetchedNone
  end.

(** [DatabaseManager.execute_procedure]: execute and commit. *)
Definition execute_procedure (proc_call : Statement unit) : M bool :=
  match acquire_fault ext (stmt_text proc_call) with
  | Some e => raise e
  | None =>
      try_except
        (durable <- get_tables ;;
         emit (CursorExecute (stmt_kind proc_call) (stmt_text proc_call)
                             (stmt_params proc_call)) ;;
         x <- lift (cursor_execute proc_call durable) ;;
         emit ConnCommit ;;
         put_tables (snd x) ;;
         ret true)
        (fun e => logger ERROR "execute_procedure failed: %s" ;; raise e)
  end.

End Database.

(** ** utils/oci_embedding.py *)

Definition NL : string := String (ascii_of_nat 10) EmptyString.

Definition DEFAULT_EMBED_MODEL : string := "cohere.embed-v4.0".

Definition DEFAULT_OCI_REGION : string := "us-chicago-1".

(** [os.getenv(name, default)] *)
Definition getenv_default (ext : External) (name default : string) : string :=
  match getenv ext name with Some v => v | None => default end.

Section Embedding.

Variable ext : External.

Definition init_client (config : Config) : M Client :=
  let region := getenv_default ext "OCI_REGION" DEFAULT_OCI_REGION in
  let client_config := dict_set config "region" region in
  lift (new_inference_client ext client_config).

(** The shape probing of [get_embeddings]: [response.data.embeddings],
    else [response.embeddings]. *)
Definition probe_embeddings (response : EmbedResponse)
  : Attr (Optional (list Vector)) :=
  match er_data response with
  | Some data =>
      match data_embeddings data with
      | Some v => Some v
      | None => er_embeddings response
      end
  | None => er_embeddings response
  end.

Definition get_embeddings (client : Client) (compartment_id : Optional string)
    (texts : list string) (model_id : Optional string)
  : M (Optional (list Vector)) :=
  match texts with
  | [] => ret (Some [])
  | _ :: _ =>
      let model_id :=
        or_str model_id
          (or_str (getenv ext "OCI_EMBED_MODEL_ID") DEFAULT_EMBED_MODEL) in
      try_except
        (let details :=
           {| etd_compartment_id := compartment_id;
              etd_model_id := model_id;
              etd_inputs := texts;
              etd_input_type := "SEARCH_QUERY" |} in
         emit (EmbedTextCall texts) ;;
         response <- lift (embed_text ext client details) ;;
         match probe_embeddings response with
         | Some v => ret v
         | None =>
             logger WARNING "Unexpected embed response shape: %s" ;;
             ret (Some [])
         end)
        (fun e => logger ERROR "OCI embed_text failed: %s" ;; raise e)
  end.

End Embedding.

(** ** utils/oci_chat.py *)

Definition DEFAULT_CHAT_MODEL : string := "cohere.command-r-08-2024".

(** The prompt template of [chat_with_context]. *)
Definition prompt_of (context question : string) : string :=
  ("Based on the following context from our documents:" ++ NL ++ NL
   ++ context ++ NL ++ NL
   ++ "Question: " ++ question ++ NL ++ NL
   ++ "Instructions:" ++ NL
   ++ "1. Answer in one short paragraph based only on the context." ++ NL
   ++ "2. If the context does not contain the answer, say so." ++ NL
   ++ "3. IMPORTANT: Respond in the SAME LANGUAGE as the question. "
   ++ "If the question is in Korean, answer in Korean. If in Japanese, answer in Japanese. Etc.")%string.

(** [chat_resp.message.content], else [chat_resp.content], else
    [chat_resp.text]. *)
Definition probe_chat_resp (chat_resp : ChatResp) : Attr (Optional string) :=
  match cr_message chat_resp with
  | Some {| message_content := Some v |} => Some v
  | _ =>
      match cr_content chat_resp with
      | Some v => Some v
      | None => cr_text chat_resp
      end
  end.

(** The whole probing of the response: [None] when no path is present and
    control reaches the warning. *)
Definition probe_chat (response : ChatResponse) : Attr (Optional string) :=
  let from_response := resp_content response in
  match resp_data response with
  | Some data =>
      let from_data :=
        match data_content data with
        | Some v => Some v
        | None => from_response
        end in
      match data_chat_response data with
      | Some chat_resp =>
          match probe_chat_resp chat_resp with
          | Some v => Some v
          | None => from_data
          end
      | None => from_data
      end
  | None => from_response
  end.

Section Chat.

Variable ext : External.

Definition chat_with_context (config : Config) (compartment_id : Optional string)
    (context question : string) (model_id : string) (max_tokens : Z)
    (temperature : Float) : M (Optional string) :=
  let prompt := prompt_of context question in
  try_except
    (let region := getenv_default ext "OCI_REGION" DEFAULT_OCI_REGION in
     let client_config := dict_set config "region" region in
     client <- lift (new_inference_client ext client_config) ;;
     let details :=
       {| cd_compartment_id := compartment_id;
          cd_model_id := model_id;
          cd_message := prompt;
          cd_max_tokens := max_tokens;
          cd_temperature := temperature |} in
     emit (ChatCall prompt) ;;
     response <- lift (chat ext client details) ;;
     match probe_chat response with
     | Some v => ret v
     | None =>
         logger WARNING "Unexpected chat response shape: %s" ;;
         ret None
     end)
    (fun e => logger ERROR "OCI chat failed: %s" ;; ret None).

End Chat.

(** ** knowledge_bot.py: the SQL of the retrieval *)

(** A row of the vector search: [r[0]] .. [r[4]]. *)
Record SearchRow : Type := mkSearchRow {
  r0 : Z;
  r1 : Z;
  r2 : Optional string;
  r3 : Optional Float;
  r4 : Optional string
}.

Definition is_not_null {A : Type} (x : Optional A) : bool :=
  match x with Some _ => true | None => false end.

(** [doc_chunks c JOIN doc_ingest_jobs j ON j.job_id = c.job_id] *)
Definition join_on_job_id (t : Tables) : list (Chunk * IngestJob) :=
  flat_map
    (fun c =>
       map (fun j => (c, j))
           (filter (fun j => Z.eqb (job_id j) (c_job_id c)) (doc_ingest_jobs t)))
    (doc_chunks t).

(** [WHERE j.object_name = :doc_name AND c.embed_vector IS NOT NULL] *)
Definition where_doc_embedded (doc_name : string) (cj : Chunk * IngestJob) : bool :=
  String.eqb (object_name (snd cj)) doc_name && is_not_null (embed_vector (fst cj)).

(** [DBMS_LOB.SUBSTR(lob, amount, offset)]: [amount] characters from the
    1-based [offset]; [NULL] for a [NULL] lob or arguments below 1. *)
Definition dbms_lob_substr (lob : Optional string) (amount offset : Z)
  : Optional string :=
  match lob with
  | Some s =>
      if (amount <? 1)%Z || (offset <? 1)%Z then None
      else Some (substring (Z.to_nat (offset - 1)) (Z.to_nat amount) s)
  | None => None
  end.

(** Ascending order on the [similarity] column; [NULL]s sort last. *)
Definition similarity_leb (a b : Optional Float) : bool :=
  match a, b with
  | Some x, Some y => Qle_bool x y
  | Some _, None => true
  | None, Some _ => false
  | None, None => true
  end.

Fixpoint insert_by_similarity (r : SearchRow) (l : list SearchRow) : list SearchRow :=
  match l with
  | [] => [r]
  | x :: l' =>
      if similarity_leb (r3 r) (r3 x) then r :: x :: l'
      else x :: insert_by_similarity r l'
  end.

(** [ORDER BY similarity] (ties keep the order of the input). *)
Definition order_by_similarity (l : list SearchRow) : list SearchRow :=
  fold_right insert_by_similarity [] l.

(** [FETCH FIRST :top_k ROWS ONLY]; a count below 1 fetches nothing. *)
Definition fetch_first {A : Type} (top_k : Z) (l : list A) : list A :=
  firstn (Z.to_nat top_k) l.

(** Evaluate a list of fallible computations, left to right. *)
Fixpoint map_result {A B : Type} (f : A -> Result B) (l : list A) : Result (list B) :=
  match l with
  | [] => Return []
  | a :: l' =>
      match f a with
      | Raise e => Raise e
      | Return b =>
          match map_result f l' with
          | Raise e => Raise e
          | Return bs => Return (b :: bs)
          end
      end
  end.

Definition count_sql : string :=
  ("
        SELECT COUNT(" ++ "*" ++ ") FROM doc_chunks c
        JOIN doc_ingest_jobs j ON j.job_id = c.job_id
        WHERE j.object_name = :doc_name AND c.embed_vector IS NOT NULL
        ")%string.

Definition sql : string :=
  "
    SELECT
        c.job_id,
        c.chunk_id,
        DBMS_LOB.SUBSTR(c.chunk_text, 8000, 1) AS chunk_text,
        vector_distance(c.embed_vector, TO_VECTOR(:query_vector), COSINE) AS similarity,
        j.object_name
    FROM doc_chunks c
    JOIN doc_ingest_jobs j ON j.job_id = c.job_id
    WHERE j.object_name = :doc_name
      AND c.embed_vector IS NOT NULL
    ORDER BY similarity
    FETCH FIRST :top_k ROWS ONLY
    ".

Section Retrieval.

Variable ext : External.

(** The rows denoted by [count_sql]: one row holding the count. *)
Definition count_rows (doc_name : string) (t : Tables) : Result (list Z) :=
  Return [Z.of_nat (List.length (filter (where_doc_embedded doc_name) (join_on_job_id t)))].

(** The select list of [sql] on one joined row. *)
Definition select_list (query_vector : string) (cj : Chunk * IngestJob)
  : Result SearchRow :=
  let (c, j) := cj in
  match embed_vector c with
  | Some v =>
      match vector_distance ext v query_vector with
      | Return d =>
          Return {| r0 := c_job_id c;
                    r1 := chunk_id c;
                    r2 := dbms_lob_substr (chunk_text c) 8000 1;
                    r3 := Some d;
                    r4 := Some (object_name j) |}
      | Raise e => Raise e
      end
  | None =>
      Return {| r0 := c_job_id c;
                r1 := chunk_id c;
                r2 := dbms_lob_substr (chunk_text c) 8000 1;
                r3 := None;
                r4 := Some (object_name j) |}
  end.

(** The rows denoted by [sql]. *)
Definition search_rows (query_vector doc_name : string) (top_k : Z) (t : Tables)
  : Result (list SearchRow) :=
  match map_result (select_list query_vector)
                   (filter (where_doc_embedded doc_name) (join_on_job_id t)) with
  | Return rows => Return (fetch_first top_k (order_by_similarity rows))
  | Raise e => Raise e
  end.

Definition count_statement (doc_name : string) : Statement Z :=
  Select count_sql [("doc_name"%string, BindStr doc_name)] (count_rows doc_name).

Definition search_statement (query_vector doc_name : string) (top_k : Z)
  : Statement SearchRow :=
  Select sql
         [("query_vector"%string, BindStr query_vector);
          ("doc_name"%string, BindStr doc_name);
          ("top_k"%string, BindInt top_k)]
         (search_rows query_vector doc_name top_k).

End Retrieval.

(** ** knowledge_bot.py: retrieval *)

(** Run a block and hand its outcome to the code after the [try]
    statement: [try: x = body  except Exception as e: ...]. *)
Definition attempt {A : Type} (body : M A) : M (Result A) :=
  fun t => let '(r, t1, ev1) := body t in (Return r, t1, ev1).

Definition type_error : PyExc :=
  Exception "TypeError" "object is not subscriptable".

(** The dict built for one row by the list comprehension. *)
Definition result_of_row (r : SearchRow) : QueryResult :=
  {| qr_job_id := r0 r;
     qr_chunk_id := r1 r;
     qr_chunk_text := or_str (r2 r) EmptyString;
     qr_similarity := r3 r;
     qr_object_name := or_str (r4 r) EmptyString |}.

Section Search.

Variable ext : External.

(** ["[" + ",".join(map(str, query_embedding)) + "]"] *)
Definition embedding_str (query_embedding : Vector) : string :=
  ("[" ++ str_join "," (map (float_str ext) query_embedding) ++ "]")%string.

(** The optional count of embedded chunks, for the log only. *)
Definition log_chunk_count (doc_name : string) : M unit :=
  r <- attempt
         (count_row <- execute_query ext (count_statement doc_name) true true false ;;
          let total_chunks :=
            match count_row with
            | FetchedOne (Some n) => n
            | _ => 0%Z
            end in
          logger INFO "search_chunks_by_doc: doc %r has %s chunks with non-null embed_vector") ;;
  match r with
  | Return _ => ret tt
  | Raise e => logger WARNING "search_chunks_by_doc: count check failed: %s"
  end.

(** The vector search and the conversion of its rows. *)
Definition vector_search (embedding_str doc_name : string) (top_k : Z)
  : M (list QueryResult) :=
  r <- attempt
         (fetched <- execute_query ext (search_statement ext embedding_str doc_name top_k)
                                   false true false ;;
          logger INFO "search_chunks_by_doc: vector search returned %s rows" ;;
          match fetched with
          | FetchedAll [] => ret []
          | FetchedAll (r :: rows') =>
              let result := map result_of_row (r :: rows') in
              (if is_not_null (qr_similarity (result_of_row r))
               then logger INFO "search_chunks_by_doc: best similarity=%.4f"
               else ret tt) ;;
              ret result
          | FetchedNone | FetchedOne None => ret []
          | FetchedOne (Some _) => raise type_error
          end) ;;
  match r with
  | Return result => ret result
  | Raise e =>
      logger ERROR "search_chunks_by_doc: vector search failed: %s" ;;
      ret []
  end.

Definition search_chunks_by_doc (oci_client : Client)
    (compartment_id : Optional string) (doc_name query : string) (top_k : Z)
  : M (list QueryResult) :=
  logger INFO "search_chunks_by_doc: doc_name=%r, query=%r, top_k=%s" ;;
  r <- attempt (get_embeddings ext oci_client compartment_id [query] None) ;;
  match r with
  | Raise e =>
      logger ERROR "search_chunks_by_doc: get_embeddings failed: %s" ;;
      ret []
  | Return (Some [query_embedding]) =>
      logger INFO "search_chunks_by_doc: embedding ok, dimension=%s" ;;
      let embedding_str := embedding_str query_embedding in
      log_chunk_count doc_name ;;
      vector_search embedding_str doc_name top_k
  | Return _ =>
      logger WARNING "search_chunks_by_doc: get_embeddings returned %s (expected 1 embedding)" ;;
      ret []
  end.

End Search.

(** ** knowledge_bot.py: the Knowledge Bot tab *)

(** What [get_oci_client] keeps in [st.session_state]. *)
Record OciSession : Type := mkOciSession {
  oci_client : Client;
  oci_config : Config;
  session_compartment_id : Optional string
}.

(** The widget values of one run of the script: the option chosen in the
    select box, the text area after [query.strip()], the slider, the two
    buttons, and the client kept in [st.session_state] by an earlier run. *)
Record Inputs : Type := mkInputs {
  selected_doc : string;
  query : string;
  top_k : Z;
  search_only : bool;
  ask_rag : bool;
  session_state : Optional OciSession
}.

(** [a or b] on optional strings. *)
Definition or_opt (a b : Optional string) : Optional string :=
  match a with
  | Some s => if str_truthy s then a else b
  | None => b
  end.

Definition format_error : PyExc :=
  Exception "TypeError" "unsupported format string passed to NoneType.__format__".

(** The markdown header and the code block of one chunk.  The header
    formats the similarity with [:.4f], which [None] does not support. *)
Definition show_chunk (i : nat) (c : QueryResult) (code : string) : M unit :=
  match qr_similarity c with
  | Some _ => emit (UiChunk i c code)
  | None => raise format_error
  end.

(** [for i, c in enumerate(chunks, start): body i c] *)
Fixpoint for_enumerate {A : Type} (start : nat) (l : list A)
    (body : nat -> A -> M unit) : M unit :=
  match l with
  | [] => ret tt
  | a :: l' => body start a ;; for_enumerate (S start) l' body
  end.

(** [text[:1000]], followed by three dots when [len(text) > 1000]. *)
Definition preview (text : string) : string :=
  (str_take 1000 text
   ++ (if Nat.ltb 1000 (String.length text) then "..." else EmptyString))%string.

(** ["\n\n".join(c["chunk_text"] for c in chunks)] *)
Definition rag_context (chunks : list QueryResult) : string :=
  str_join (NL ++ NL) (map qr_chunk_text chunks).

(** [if answer: ... else: st.error(...)] at the end of the RAG branch. *)
Definition show_answer (answer : Optional string) (chunks : list QueryResult)
  : M unit :=
  match answer with
  | Some (String _ _ as text) =>
      emit (Ui StSubheader "Answer") ;;
      emit (Ui StWrite text) ;;
      emit (Ui StDivider EmptyString) ;;
      emit (Ui StSubheader "📄 Source Chunks") ;;
      for_enumerate 1 chunks
        (fun i c => show_chunk i c (preview (qr_chunk_text c)))
  | _ => emit (Ui StError "Failed to get answer from LLM.")
  end.

Definition distinct_names_sql : string :=
  "
    SELECT DISTINCT j.object_name
      FROM doc_ingest_jobs j
     WHERE EXISTS (SELECT 1 FROM doc_chunks c WHERE c.job_id = j.job_id)
     ORDER BY j.object_name
    ".

Fixpoint insert_name (s : string) (l : list string) : list string :=
  match l with
  | [] => [s]
  | x :: l' => if String.leb s x then s :: x :: l' else x :: insert_name s l'
  end.

(** The rows denoted by [distinct_names_sql]. *)
Definition distinct_names_rows (t : Tables) : Result (list string) :=
  let with_chunks :=
    filter (fun j => existsb (fun c => Z.eqb (c_job_id c) (job_id j)) (doc_chunks t))
           (doc_ingest_jobs t) in
  Return (fold_right insert_name [] (nodup string_dec (map object_name with_chunks))).

Section Tab.

Variable ext : External.

Definition get_oci_client (session : Optional OciSession) : M OciSession :=
  match session with
  | Some s => ret s
  | None =>
      config <- lift (oci_config_from_file ext) ;;
      client <- init_client ext config ;;
      ret {| oci_client := client;
             oci_config := config;
             session_compartment_id :=
               or_opt (dict_get config "tenancy") (dict_get config "compartment_id") |}
  end.

Definition get_distinct_document_names : M (list string) :=
  try_except
    (rows <- execute_query ext (Select distinct_names_sql [] distinct_names_rows)
                           false true false ;;
     let names := match rows with FetchedAll l => l | _ => [] end in
     logger INFO "get_distinct_document_names: found %s documents: %s" ;;
     ret names)
    (fun e => logger ERROR "get_distinct_document_names failed: %s" ;; ret []).

(** [get_oci_client()] followed by [search_chunks_by_doc], as both
    buttons run them inside one [try]. *)
Definition client_and_chunks (inp : Inputs) : M (OciSession * list QueryResult) :=
  s <- get_oci_client (session_state inp) ;;
  chunks <- search_chunks_by_doc ext (oci_client s) (session_compartment_id s)
                                 (selected_doc inp) (query inp) (top_k inp) ;;
  ret (s, chunks).

(** The body of [if search_only:]. *)
Definition on_search_only (inp : Inputs) : M unit :=
  if negb (str_truthy (query inp)) then emit (Ui StWarning "Enter a question first.")
  else
    r <- attempt (client_and_chunks inp) ;;
    chunks <- match r with
              | Return (_, chunks) => ret chunks
              | Raise (Exception _ msg) =>
                  emit (Ui StError ("Search failed: " ++ msg)) ;; ret []
              end ;;
    match chunks with
    | [] => emit (Ui StInfo "No chunks found for this document/query.")
    | _ :: _ =>
        emit (Ui StSubheader ("📄 Top " ++ str_of_nat (List.length chunks)
                              ++ " Similar Chunks")) ;;
        for_enumerate 1 chunks (fun i c => show_chunk i c (qr_chunk_text c))
    end.

(** The body of [if ask_rag:]. *)
Definition on_ask_rag (inp : Inputs) : M unit :=
  if negb (str_truthy (query inp)) then emit (Ui StWarning "Enter a question first.")
  else
    r <- attempt (client_and_chunks inp) ;;
    match r with
    | Raise (Exception _ msg) =>
        emit (Ui StError ("Search failed: " ++ msg)) ;;
        emit (Ui StInfo "No chunks found. Cannot generate an answer.")
    | Return (_, []) =>
        emit (Ui StInfo "No chunks found. Cannot generate an answer.")
    | Return (s, (_ :: _) as chunks) =>
        let context := rag_context chunks in
        answer <- chat_with_context ext (oci_config s) (session_compartment_id s)
                    context (query inp) DEFAULT_CHAT_MODEL 1024 (3 # 10) ;;
        show_answer answer chunks
    end.

Definition render_knowledge_bot_tab (inp : Inputs) : M unit :=
  r <- attempt get_distinct_document_names ;;
  match r with
  | Raise (Exception _ msg) => emit (Ui StError ("Database error: " ++ msg))
  | Return [] =>
      emit (Ui StWarning "No documents with chunks found. Run the ingest pipeline first.")
  | Return (_ :: _) =>
      (if search_only inp then on_search_only inp else ret tt) ;;
      (if ask_rag inp then on_ask_rag inp else ret tt)
  end.

End Tab.

(** ** knowledge_bot.py: the helpers of the Admin tab *)

(** A row of [user_scheduler_jobs] as selected by [get_scheduler_jobs]. *)
Record SchedulerRow : Type := mkSchedulerRow {
  sr_job_name : string;
  sr_enabled : string;
  sr_state : Optional string;
  sr_last_start : Optional string;
  sr_next_run : Optional string;
  sr_failure_count : Z
}.

(** The dict built by [get_scheduler_jobs] for one row. *)
Record SchedulerJob : Type := mkSchedulerJob {
  sj_job_name : string;
  sj_enabled : bool;
  sj_state : Optional string;
  sj_last_start : Optional string;
  sj_next_run : Optional string;
  sj_failure_count : Z
}.

(** A row of the recent jobs: job_id, object_name, status, attempts,
    created, error_preview. *)
Record RecentRow : Type := mkRecentRow {
  rr_job_id : Z;
  rr_object_name : string;
  rr_status : string;
  rr_attempts : Z;
  rr_created : Optional string;
  rr_error : Optional string
}.

(** The dict returned by [get_ingest_job_status]. *)
Record IngestStatus : Type := mkIngestStatus {
  summary : Dict Z;
  recent : list RecentRow
}.

(** What the database answers beyond the two tables of the retrieval: the
    scheduler view, and the columns of [doc_ingest_jobs] that [IngestJob]
    does not carry (attempts, created_at, error_msg). *)
Record AdminData : Type := mkAdminData {
  scheduler_rows : Tables -> Result (list SchedulerRow);
  recent_rows : Tables -> Result (list RecentRow)
}.

Definition scheduler_jobs_sql : string :=
  "
    SELECT job_name, enabled, state, 
           TO_CHAR(last_start_date, 'YYYY-MM-DD HH24:MI:SS') as last_start,
           TO_CHAR(next_run_date, 'YYYY-MM-DD HH24:MI:SS') as next_run,
           failure_count
      FROM user_scheduler_jobs
     ORDER BY job_name
    ".

Definition summary_q : string :=
  ("
    SELECT status, COUNT(" ++ "*" ++ ") as cnt
      FROM doc_ingest_jobs
     GROUP BY status
     ORDER BY DECODE(status, 'PENDING',1, 'CHUNKING',2, 'CHUNKED',3, 
                     'EMBEDDING',4, 'DONE',5, 'CHUNK_ERROR',6, 'EMBED_ERROR',7, 8)
    ")%string.

Definition recent_q : string :=
  "
    SELECT job_id, object_name, status, attempts,
           TO_CHAR(created_at, 'YYYY-MM-DD HH24:MI:SS') as created,
           SUBSTR(error_msg, 1, 100) as error_preview
      FROM doc_ingest_jobs
     ORDER BY created_at DESC
     FETCH FIRST 20 ROWS ONLY
    ".

(** [DECODE(status, 'PENDING',1, ..., 'EMBED_ERROR',7, 8)] *)
Definition decode_status (s : string) : Z :=
  if String.eqb s "PENDING" then 1
  else if String.eqb s "CHUNKING" then 2
  else if String.eqb s "CHUNKED" then 3
  else if String.eqb s "EMBEDDING" then 4
  else if String.eqb s "DONE" then 5
  else if String.eqb s "CHUNK_ERROR" then 6
  else if String.eqb s "EMBED_ERROR" then 7
  else 8.

Fixpoint insert_by_decode (r : string * Z) (l : list (string * Z))
  : list (string * Z) :=
  match l with
  | [] => [r]
  | x :: l' =>
      if Z.leb (decode_status (fst r)) (decode_status (fst x)) then r :: x :: l'
      else x :: insert_by_decode r l'
  end.

(** The rows denoted by [summary_q]: one row per status with the number
    of jobs in it, in the order of [DECODE]. *)
Definition summary_rows (t : Tables) : Result (list (string * Z)) :=
  let statuses := map status (doc_ingest_jobs t) in
  Return (fold_right insert_by_decode []
            (map (fun s => (s, Z.of_nat (count_occ string_dec statuses s)))
                 (nodup string_dec statuses))).

(** [{r[0]: r[1] for r in rows}] *)
Definition dict_of_rows {V : Type} (rows : list (string * V)) : Dict V :=
  fold_left (fun d r => dict_set d (fst r) (snd r)) rows [].

(** The dict built for one row by [get_scheduler_jobs]. *)
Definition job_of_row (r : SchedulerRow) : SchedulerJob :=
  {| sj_job_name := sr_job_name r;
     sj_enabled := String.eqb (sr_enabled r) "TRUE";
     sj_state := sr_state r;
     sj_last_start := sr_last_start r;
     sj_next_run := sr_next_run r;
     sj_failure_count := sr_failure_count r |}.

(** What a [fetch_all] call hands to [... if rows else []]. *)
Definition rows_or_empty {R : Type} (fetched : Fetched R) : list R :=
  match fetched with FetchedAll l => l | _ => [] end.

Section Admin.

Variable ext : External.

Variable admin : AdminData.

Definition get_scheduler_jobs : M (list SchedulerJob) :=
  try_except
    (rows <- execute_query ext (Select scheduler_jobs_sql [] (scheduler_rows admin))
                           false true false ;;
     ret (map job_of_row (rows_or_empty rows)))
    (fun e => logger ERROR "get_scheduler_jobs failed: %s" ;; ret []).

Definition get_ingest_job_status : M IngestStatus :=
  try_except
    (fetched_summary <- execute_query ext (Select summary_q [] summary_rows)
                                      false true false ;;
     fetched_recent <- execute_query ext (Select recent_q [] (recent_rows admin))
                                     false true false ;;
     ret {| summary := dict_of_rows (rows_or_empty fetched_summary);
            recent := rows_or_empty fetched_recent |})
    (fun e =>
       logger ERROR "get_ingest_job_status failed: %s" ;;
       ret {| summary := []; recent := [] |}).

Definition toggle_scheduler_job (job_name : string) (enable : bool) : M bool :=
  let action := (if enable then "ENABLE" else "DISABLE")%string in
  let q := ("BEGIN DBMS_SCHEDULER." ++ action
            ++ "(:job_name, force => TRUE); END;")%string in
  r <- attempt (execute_procedure ext
                  (Block q [("job_name"%string, BindStr job_name)])) ;;
  match r with
  | Return _ => ret true
  | Raise (Exception _ msg) =>
      logger ERROR "toggle_scheduler_job failed: %s" ;;
      emit (Ui StError ("Failed to toggle job: " ++ msg)) ;;
      ret false
  end.

Definition run_procedure (proc_name : string) : M bool :=
  let q := ("BEGIN " ++ proc_name ++ "; END;")%string in
  r <- attempt (execute_procedure ext (Block q [])) ;;
  match r with
  | Return _ => ret true
  | Raise (Exception _ msg) =>
      logger ERROR "run_procedure %s failed: %s" ;;
      emit (Ui StError ("Error running " ++ proc_name ++ ": " ++ msg)) ;;
      ret false
  end.

End Admin.

(** * Notions used by the properties *)

(** ** Notions of the specification *)

(** Follows the specification's words: the chunk texts of the results, in
    input order, separated by a blank line. *)
Fixpoint assemble (results : list QueryResult) : string :=
  match results with
  | [] => EmptyString
  | [r] => qr_chunk_text r
  | r :: rest => (qr_chunk_text r ++ NL ++ NL ++ assemble rest)%string
  end.

(** Follows the specification's words: the chunk belongs to the document
    when its owning job carries the document's name. *)
Definition belongs_to (t : Tables) (document_name : string) (c : Chunk) : bool :=
  existsb (fun j => Z.eqb (job_id j) (c_job_id c)
                    && String.eqb (object_name j) document_name)
          (doc_ingest_jobs t).

(** Follows the specification's words: the number of chunks of the
    document whose embedding vector is non-null. *)
Definition available_embedded_chunks (t : Tables) (document_name : string) : nat :=
  List.length
    (filter (fun c => belongs_to t document_name c && is_not_null (embed_vector c))
            (doc_chunks t)).

(** The stored text of a chunk, a [NULL] text read as the empty text. *)
Definition stored_text (c : Chunk) : string :=
  match chunk_text c with Some s => s | None => EmptyString end.

Definition is_chat_call (ev : Event) : bool :=
  match ev with ChatCall _ => true | _ => false end.

(** An event that leaves the database as it is: no commit, and no
    statement other than a query. *)
Definition fetch_only (ev : Event) : Prop :=
  match ev with
  | CursorExecute kind _ _ => kind = Query
  | ConnCommit => False
  | _ => True
  end.

(** Non-decreasing in distance. *)
Definition similarity_le (a b : QueryResult) : Prop :=
  match qr_similarity a, qr_similarity b with
  | Some x, Some y => (x <= y)%Q
  | _, _ => False
  end.

(** The events a retrieval may emit: log records, the embedding call and
    queries. *)
Definition retrieval_event (ev : Event) : bool :=
  match ev with
  | Log _ _ | EmbedTextCall _ | CursorExecute Query _ _ => true
  | _ => false
  end.

(** What the vector search hands back, from the outcome of the query. *)
Definition rows_to_results (fetched : Result (Fetched SearchRow)) : list QueryResult :=
  match fetched with
  | Return (FetchedAll rows) => map result_of_row rows
  | _ => []
  end.

(** What [search_chunks_by_doc] returns, from the outcomes of the
    embedding adapter and of the query. *)
Definition search_result (ext : External) (client : Client)
    (comp : Optional string) (doc_name query : string) (top_k : Z) (t : Tables)
  : list QueryResult :=
  match outcome (get_embeddings ext client comp [query] None t) with
  | Return (Some [query_embedding]) =>
      rows_to_results
        (outcome (execute_query ext
                    (search_statement ext (embedding_str ext query_embedding)
                                      doc_name top_k)
                    false true false t))
  | _ => []
  end.

Definition row_le (a b : SearchRow) : Prop := similarity_leb (r3 a) (r3 b) = true.

(** Where a row of the search comes from: a chunk with a vector, its job
    named [doc_name], and the distance of the vector to the query vector. *)
Definition row_from (ext : External) (query_vector doc_name : string) (t : Tables)
    (r : SearchRow) : Prop :=
  exists c j v d,
    In c (doc_chunks t) /\ In j (doc_ingest_jobs t)
    /\ job_id j = c_job_id c /\ object_name j = doc_name
    /\ embed_vector c = Some v
    /\ vector_distance ext v query_vector = Return d
    /\ r = {| r0 := c_job_id c;
              r1 := chunk_id c;
              r2 := dbms_lob_substr (chunk_text c) 8000 1;
              r3 := Some d;
              r4 := Some (object_name j) |}.

(** The ways a retrieval fails: the embedding adapter raises, or hands
    back something other than exactly one vector, or the vector search
    raises. *)
Definition retrieval_fails (ext : External) (client : Client)
    (comp : Optional string) (doc_name query : string) (top_k : Z) (t : Tables)
  : Prop :=
  (exists e, outcome (get_embeddings ext client comp [query] None t) = Raise e)
  \/ (exists vs,
        outcome (get_embeddings ext client comp [query] None t) = Return vs
        /\ match vs with
           | Some l => List.length l <> 1%nat
           | None => True
           end)
  \/ (exists v e,
        outcome (get_embeddings ext client comp [query] None t) = Return (Some [v])
        /\ outcome (execute_query ext
                      (search_statement ext (embedding_str ext v) doc_name top_k)
                      false true false t) = Raise e).

(** The answer of the chat adapter, from what the hosted service does:
    the reply found in the response, or [None] when building the client or
    the call raises, or when the response has none of the known shapes. *)
Definition expected_answer (ext : External) (config : Config)
    (comp : Optional string) (context question model_id : string)
    (max_tokens : Z) (temperature : Float) : Optional string :=
  match new_inference_client ext
          (dict_set config "region" (getenv_default ext "OCI_REGION" DEFAULT_OCI_REGION)) with
  | Raise _ => None
  | Return client =>
      match chat ext client
              {| cd_compartment_id := comp;
                 cd_model_id := model_id;
                 cd_message := prompt_of context question;
                 cd_max_tokens := max_tokens;
                 cd_temperature := temperature |} with
      | Raise _ => None
      | Return response =>
          match probe_chat response with
          | Some reply => reply
          | None => None
          end
      end
  end.

(** ** Notions for the properties of the other functions *)

Definition is_embed_call (ev : Event) : bool :=
  match ev with EmbedTextCall _ => true | _ => false end.

(** A statement sent to the database, or a commit. *)
Definition is_db_call (ev : Event) : bool :=
  match ev with CursorExecute _ _ _ | ConnCommit => true | _ => false end.

Definition is_commit (ev : Event) : bool :=
  match ev with ConnCommit => true | _ => false end.

Definition is_log (ev : Event) : bool :=
  match ev with Log _ _ => true | _ => false end.

(** A log record or a query. *)
Definition log_or_query (ev : Event) : bool :=
  match ev with
  | Log _ _ | CursorExecute Query _ _ => true
  | _ => false
  end.

(** A log record or a chat call. *)
Definition log_or_chat (ev : Event) : bool :=
  match ev with
  | Log _ _ | ChatCall _ => true
  | _ => false
  end.

(** A log record or the embedding call. *)
Definition log_or_embed (ev : Event) : bool :=
  match ev with
  | Log _ _ | EmbedTextCall _ => true
  | _ => false
  end.

(** A widget of the page (not a log record, not a call). *)
Definition is_ui (ev : Event) : bool :=
  match ev with Ui _ _ | UiChunk _ _ _ => true | _ => false end.

(** The chunk widgets of a list of chunks, numbered from [start]. *)
Fixpoint chunk_widgets (start : nat) (code : QueryResult -> string)
    (chunks : list QueryResult) : list Event :=
  match chunks with
  | [] => []
  | c :: chunks' => UiChunk start c (code c) :: chunk_widgets (S start) code chunks'
  end.

(** The model id [get_embeddings] puts in its request. *)
Definition embed_model_id (ext : External) (model_id : Optional string) : string :=
  or_str model_id (or_str (getenv ext "OCI_EMBED_MODEL_ID") DEFAULT_EMBED_MODEL).

(** The request [get_embeddings] sends for [texts]. *)
Definition embed_request (ext : External) (comp : Optional string)
    (texts : list string) (model_id : Optional string) : EmbedTextDetails :=
  {| etd_compartment_id := comp;
     etd_model_id := embed_model_id ext model_id;
     etd_inputs := texts;
     etd_input_type := "SEARCH_QUERY" |}.

(** The five places where [chat_with_context] looks for a reply. *)
Definition no_reply_path (response : ChatResponse) : Prop :=
  resp_content response = None
  /\ match resp_data response with
     | None => True
     | Some data =>
         data_content data = None
         /\ match data_chat_response data with
            | None => True
            | Some chat_resp =>
                cr_content chat_resp = None /\ cr_text chat_resp = None
                /\ match cr_message chat_resp with
                   | None => True
                   | Some m => message_content m = None
                   end
            end
     end.

(** The job has at least one chunk. *)
Definition has_chunk (t : Tables) (j : IngestJob) : Prop :=
  exists c, In c (doc_chunks t) /\ c_job_id c = job_id j.

(** The number of jobs in a status. *)
Definition jobs_in_status (t : Tables) (s : string) : Z :=
  Z.of_nat (count_occ string_dec (map status (doc_ingest_jobs t)) s).

(** The names [distinct_names_sql] lists for the tables. *)
Definition listed_names (t : Tables) : list string :=
  match distinct_names_rows t with
  | Return names => names
  | Raise _ => []
  end.

(** The names query runs without a fault of the driver. *)
Definition names_query_ok (ext : External) : Prop :=
  acquire_fault ext distinct_names_sql = None
  /\ execute_fault ext distinct_names_sql = None.

(** [not answer]: [None] or the empty string. *)
Definition no_answer (answer : Optional string) : Prop :=
  answer = None \/ answer = Some EmptyString.

(** The answer the RAG branch gets for the chunks of a retrieval. *)
Definition rag_answer (ext : External) (inp : Inputs) (s : OciSession)
    (chunks : list QueryResult) : Optional string :=
  expected_answer ext (oci_config s) (session_compartment_id s)
                  (rag_context chunks) (query inp) DEFAULT_CHAT_MODEL 1024 (3 # 10).

(** Ascending order of names. *)
Definition name_le (a b : string) : Prop := String.leb a b = true.

(** Follows the documentation of the hosted response, not the adapter:
    [chat_resp] carries no [message.content]. *)
Definition no_message_content (chat_resp : ChatResp) : Prop :=
  match cr_message chat_resp with
  | None => True
  | Some m => message_content m = None
  end.

(** The [chat_response] of [data], if any, carries no reply. *)
Definition no_chat_reply (data : ChatData) : Prop :=
  match data_chat_response data with
  | None => True
  | Some chat_resp =>
      no_message_content chat_resp
      /\ cr_content chat_resp = None /\ cr_text chat_resp = None
  end.

(** Where the reply of the model sits in a response, read off the shapes
    of the hosted service: the first that is present of
    [data.chat_response.message.content], [data.chat_response.content],
    [data.chat_response.text], [data.content] and [content]. *)
Inductive model_reply (response : ChatResponse) (reply : Optional string) : Prop :=
| ReplyInMessage data chat_resp m :
    resp_data response = Some data ->
    data_chat_response data = Some chat_resp ->
    cr_message chat_resp = Some m ->
    message_content m = Some reply ->
    model_reply response reply
| ReplyInChatContent data chat_resp :
    resp_data response = Some data ->
    data_chat_response data = Some chat_resp ->
    no_message_content chat_resp ->
    cr_content chat_resp = Some reply ->
    model_reply response reply
| ReplyInChatText data chat_resp :
    resp_data response = Some data ->
    data_chat_response data = Some chat_resp ->
    no_message_content chat_resp ->
    cr_content chat_resp = None ->
    cr_text chat_resp = Some reply ->
    model_reply response reply
| ReplyInDataContent data :
    resp_data response = Some data ->
    no_chat_reply data ->
    data_content data = Some reply ->
    model_reply response reply
| ReplyInContent :
    match resp_data response with
    | None => True
    | Some data => no_chat_reply data /\ data_content data = None
    end ->
    resp_content response = Some reply ->
    model_reply response reply.

(** The request [chat_with_context] sends. *)
Definition chat_request (comp : Optional string) (context question model_id : string)
    (max_tokens : Z) (temperature : Float) : ChatDetails :=
  {| cd_compartment_id := comp;
     cd_model_id := model_id;
     cd_message := prompt_of context question;
     cd_max_tokens := max_tokens;
     cd_temperature := temperature |}.

(** The configuration of the client [chat_with_context] builds. *)
Definition chat_client_config (ext : External) (config : Config) : Config :=
  dict_set config "region" (getenv_default ext "OCI_REGION" DEFAULT_OCI_REGION).

(** The reply [demo_chat] gives. *)
Definition demo_reply : ChatResponse :=
  {| resp_data :=
       Some {| data_chat_response :=
                 Some {| cr_message := None;
                         cr_content := None;
                         cr_text := Some (Some "X is a letter."%string) |};
               data_content := None |};
     resp_content := None |}.

(** ** A concrete world: the scenario of the specification.
    Document [guide.pdf] has three embedded chunks at distances 0.88,
    0.12 and 0.45 from the query, [empty.pdf] has chunks without vectors,
    [other.pdf] has one embedded chunk. *)

Definition demo_tables : Tables :=
  {| doc_ingest_jobs :=
       [ mkJob 1 "guide.pdf" "DONE";
         mkJob 2 "empty.pdf" "CHUNKED";
         mkJob 3 "other.pdf" "DONE" ];
     doc_chunks :=
       [ mkChunk 1 1 (Some "alpha"%string) (Some [88 # 100]);
         mkChunk 1 2 (Some "beta"%string) (Some [12 # 100]);
         mkChunk 2 1 (Some "gamma"%string) None;
         mkChunk 3 1 (Some "delta"%string) (Some [5 # 100]);
         mkChunk 1 3 (Some "epsilon"%string) (Some [45 # 100]);
         mkChunk 2 2 None None ] |}.

Definition service_down : PyExc := Exception "ServiceError" "503".

(** One vector per input text, under [response.data.embeddings]. *)
Definition demo_embed (c : Client) (d : EmbedTextDetails) : Result EmbedResponse :=
  Return {| er_data :=
              Some {| data_embeddings :=
                        Some (Some (map (fun _ => [1 # 2]) (etd_inputs d))) |};
            er_embeddings := None |}.

(** Two vectors for any input. *)
Definition demo_embed_two (c : Client) (d : EmbedTextDetails) : Result EmbedResponse :=
  Return {| er_data := None;
            er_embeddings := Some (Some [[1 # 2]; [1 # 3]]) |}.

Definition demo_embed_down (c : Client) (d : EmbedTextDetails) : Result EmbedResponse :=
  Raise service_down.

(** The reply under [response.data.chat_response.text]. *)
Definition demo_chat (c : Client) (d : ChatDetails) : Result ChatResponse :=
  Return {| resp_data :=
              Some {| data_chat_response :=
                        Some {| cr_message := None;
                                cr_content := None;
                                cr_text := Some (Some "X is a letter."%string) |};
                      data_content := None |};
            resp_content := None |}.

(** The distance of a stored one-component vector is its component. *)
Definition demo_distance (v : Vector) (literal : string) : Result Float :=
  match v with
  | [x] => Return x
  | _ => Raise (Exception "DatabaseError" "vector dimension mismatch")
  end.

Definition demo_external
    (embed : Client -> EmbedTextDetails -> Result EmbedResponse)
    (execute_fault : string -> option PyExc) : External :=
  {| getenv := fun _ => None;
     float_str := fun _ => "0.5"%string;
     oci_config_from_file := Return [("tenancy"%string, "ocid1.tenancy"%string)];
     new_inference_client := fun config => Return (mkClient config);
     embed_text := embed;
     chat := demo_chat;
     acquire_fault := fun _ => None;
     execute_fault := execute_fault;
     vector_distance := demo_distance;
     run_plsql := fun _ _ t => Return t |}.

Definition no_fault (text : string) : option PyExc := None.

Definition search_fault (text : string) : option PyExc :=
  if String.eqb text sql then Some (Exception "DatabaseError" "connection lost")
  else None.

Definition demo_ext : External := demo_external demo_embed no_fault.

Definition demo_client : Client := mkClient [].

Definition demo_inputs : Inputs :=
  {| selected_doc := "guide.pdf";
     query := "what is X";
     top_k := 2;
     search_only := false;
     ask_rag := true;
     session_state := None |}.

Definition demo_hits : list QueryResult :=
  [ mkQueryResult 1 2 "beta" (Some (12 # 100)) "guide.pdf";
    mkQueryResult 1 3 "epsilon" (Some (45 # 100)) "guide.pdf" ].

Definition demo_session : OciSession :=
  {| oci_client := mkClient [("tenancy"%string, "ocid1.tenancy"%string);
                             ("region"%string, "us-chicago-1"%string)];
     oci_config := [("tenancy"%string, "ocid1.tenancy"%string)];
     session_compartment_id := Some "ocid1.tenancy"%string |}.

Definition demo_inputs_empty : Inputs :=
  {| selected_doc := "empty.pdf";
     query := "what is X";
     top_k := 2;
     search_only := false;
     ask_rag := true;
     session_state := None |}.

Definition count_fault (text : string) : option PyExc :=
  if String.eqb text count_sql then Some (Exception "DatabaseError" "connection lost")
  else None.

Definition demo_inputs_blank : Inputs :=
  {| selected_doc := "guide.pdf";
     query := EmptyString;
     top_k := 2;
     search_only := true;
     ask_rag := true;
     session_state := None |}.

Definition no_tables : Tables := {| doc_ingest_jobs := []; doc_chunks := [] |}.

(** A chat endpoint that is down. *)
Definition demo_chat_down (c : Client) (d : ChatDetails) : Result ChatResponse :=
  Raise service_down.

Definition demo_ext_chat_down : External :=
  {| getenv := getenv demo_ext;
     float_str := float_str demo_ext;
     oci_config_from_file := oci_config_from_file demo_ext;
     new_inference_client := new_inference_client demo_ext;
     embed_text := embed_text demo_ext;
     chat := demo_chat_down;
     acquire_fault := acquire_fault demo_ext;
     execute_fault := execute_fault demo_ext;
     vector_distance := vector_distance demo_ext;
     run_plsql := run_plsql demo_ext |}.

Definition demo_admin : AdminData :=
  {| scheduler_rows := fun _ =>
       Return [ mkSchedulerRow "CHUNK_JOB" "TRUE" (Some "SCHEDULED"%string) None None 0;
                mkSchedulerRow "EMBED_JOB" "FALSE" (Some "DISABLED"%string) None None 2 ];
     recent_rows := fun _ => Raise (Exception "DatabaseError" "ORA-00904") |}.

(** The statement text of [toggle_scheduler_job]. *)
Definition toggle_text (enable : bool) : string :=
  if enable then "BEGIN DBMS_SCHEDULER.ENABLE(:job_name, force => TRUE); END;"
  else "BEGIN DBMS_SCHEDULER.DISABLE(:job_name, force => TRUE); END;".

(** Every statement among the events is the PL/SQL block with this text
    and these bind values. *)
Definition only_block (text : string) (params : Dict BindValue) (ev : Event) : Prop :=
  match ev with
  | CursorExecute kind text' params' =>
      kind = PlsqlBlock /\ text' = text /\ params' = params
  | _ => True
  end.

Definition demo_admin_ok : AdminData :=
  {| scheduler_rows := scheduler_rows demo_admin;
     recent_rows := fun _ =>
       Return [mkRecentRow 3 "other.pdf" "DONE" 1 (Some "2025-01-01 00:00:00"%string) None] |}.

(** * Properties *)

(** ** Running the monad *)

Ltac run_step :=
  unfold bind, attempt, try_except, logger, emit, lift, ret, raise,
         get_tables, put_tables, outcome, tables_after, events in *;
  simpl in *.

Ltac events_ok :=
  repeat first
    [ assumption
    | apply Forall_nil
    | apply Forall_cons; [reflexivity|]
    | apply Forall_app; split ].

Lemma get_embeddings_frame ext client comp texts model_id t :
  tables_after (get_embeddings ext client comp texts model_id t) = t.
Proof.
  unfold get_embeddings. destruct texts as [|x texts]; [reflexivity|].
  run_step.
  destruct (embed_text ext client _) as [resp|e]; simpl; [|reflexivity].
  destruct (probe_embeddings resp); reflexivity.
Qed.

Lemma execute_query_frame ext R (s : Statement R) fetch_one fetch_all t :
  tables_after (execute_query ext s fetch_one fetch_all false t) = t.
Proof.
  unfold execute_query.
  destruct (acquire_fault ext (stmt_text s)); [reflexivity|].
  run_step.
  destruct (cursor_execute ext s t) as [[rs t']|e]; simpl; [|reflexivity].
  destruct fetch_one; simpl.
  - destruct (fetchone rs); reflexivity.
  - destruct fetch_all; simpl; [|reflexivity].
    destruct (fetchall rs); reflexivity.
Qed.

Lemma execute_query_select ext R text params (rows : Tables -> Result (list R)) t :
  outcome (execute_query ext (Select text params rows) false true false t) =
  match acquire_fault ext text with
  | Some e => Raise e
  | None =>
      match execute_fault ext text with
      | Some e => Raise e
      | None =>
          match rows t with
          | Return l => Return (FetchedAll l)
          | Raise e => Raise e
          end
      end
  end.
Proof.
  unfold execute_query, cursor_execute. simpl.
  destruct (acquire_fault ext text); [reflexivity|].
  run_step.
  destruct (execute_fault ext text); [reflexivity|].
  destruct (rows t); reflexivity.
Qed.

Lemma execute_query_events ext R (s : Statement R) fetch_one fetch_all t :
  stmt_kind s = Query ->
  Forall fetch_only (events (execute_query ext s fetch_one fetch_all false t)).
Proof.
  intros Hk. unfold execute_query.
  destruct (acquire_fault ext (stmt_text s)); [constructor|].
  run_step.
  destruct (cursor_execute ext s t) as [[rs t']|e]; simpl.
  - destruct fetch_one; simpl.
    + destruct (fetchone rs); simpl; repeat constructor; exact Hk.
    + destruct fetch_all; simpl.
      * destruct (fetchall rs); simpl; repeat constructor; exact Hk.
      * repeat constructor; exact Hk.
  - repeat constructor; exact Hk.
Qed.

Lemma retrieval_event_fetch_only ev : retrieval_event ev = true -> fetch_only ev.
Proof. destruct ev as [| | |[|] | | |]; simpl; intros; congruence || trivial. Qed.

Lemma retrieval_event_no_chat ev : retrieval_event ev = true -> is_chat_call ev = false.
Proof. destruct ev; simpl; intros; congruence. Qed.

Lemma get_embeddings_events ext client comp texts model_id t :
  Forall (fun ev => retrieval_event ev = true)
         (events (get_embeddings ext client comp texts model_id t)).
Proof.
  unfold get_embeddings. destruct texts as [|x texts]; [constructor|].
  run_step.
  destruct (embed_text ext client _) as [resp|e]; simpl.
  - destruct (probe_embeddings resp); simpl; repeat constructor.
  - repeat constructor.
Qed.

Lemma execute_query_run ext R (s : Statement R) fetch_one fetch_all t :
  stmt_kind s = Query ->
  exists evs,
    execute_query ext s fetch_one fetch_all false t
    = (outcome (execute_query ext s fetch_one fetch_all false t), t, evs)
    /\ Forall (fun ev => retrieval_event ev = true) evs.
Proof.
  intros Hk.
  pose proof (execute_query_frame ext R s fetch_one fetch_all t) as Hf.
  assert (He : Forall (fun ev => retrieval_event ev = true)
                      (events (execute_query ext s fetch_one fetch_all false t))).
  { unfold execute_query.
    destruct (acquire_fault ext (stmt_text s)); [constructor|].
    run_step. rewrite Hk.
    destruct (cursor_execute ext s t) as [[rs t']|e]; simpl.
    - destruct fetch_one; simpl.
      + destruct (fetchone rs); simpl; repeat constructor.
      + destruct fetch_all; simpl.
        * destruct (fetchall rs); simpl; repeat constructor.
        * repeat constructor.
    - repeat constructor. }
  destruct (execute_query ext s fetch_one fetch_all false t) as [[r t1] evs].
  unfold tables_after, events, outcome in *. simpl in *. subst t1.
  exists evs. split; [reflexivity|exact He].
Qed.

Lemma log_chunk_count_run ext doc_name t :
  exists evs,
    log_chunk_count ext doc_name t = (Return tt, t, evs)
    /\ Forall (fun ev => retrieval_event ev = true) evs.
Proof.
  unfold log_chunk_count.
  destruct (execute_query_run ext Z (count_statement doc_name) true true t eq_refl)
    as (evs & E & He).
  unfold bind, attempt. rewrite E.
  destruct (outcome _) as [fetched|e]; run_step.
  - eexists. split; [reflexivity|].
    events_ok.
  - eexists. split; [reflexivity|].
    events_ok.
Qed.

Lemma vector_search_run ext embedding_str doc_name top_k t :
  exists evs,
    vector_search ext embedding_str doc_name top_k t
    = (Return (rows_to_results
                 (outcome (execute_query ext
                             (search_statement ext embedding_str doc_name top_k)
                             false true false t))), t, evs)
    /\ Forall (fun ev => retrieval_event ev = true) evs.
Proof.
  unfold vector_search.
  destruct (execute_query_run ext SearchRow
              (search_statement ext embedding_str doc_name top_k) false true t eq_refl)
    as (evs & E & He).
  unfold bind, attempt. rewrite E.
  destruct (outcome _) as [fetched|e]; run_step.
  - destruct fetched as [[row|]|[|r rows]|]; simpl.
    + eexists; split; [reflexivity|].
      events_ok.
    + eexists; split; [reflexivity|].
      events_ok.
    + eexists; split; [reflexivity|].
      events_ok.
    + destruct (r3 r); simpl.
      * eexists; split; [reflexivity|].
        events_ok.
      * eexists; split; [reflexivity|].
        events_ok.
    + eexists; split; [reflexivity|].
      events_ok.
  - eexists; split; [reflexivity|].
    events_ok.
Qed.

Lemma search_run ext client comp doc_name query top_k t :
  exists evs,
    search_chunks_by_doc ext client comp doc_name query top_k t
    = (Return (search_result ext client comp doc_name query top_k t), t, evs)
    /\ Forall (fun ev => retrieval_event ev = true) evs.
Proof.
  unfold search_chunks_by_doc, search_result.
  pose proof (get_embeddings_frame ext client comp [query] None t) as Hf.
  pose proof (get_embeddings_events ext client comp [query] None t) as He.
  destruct (get_embeddings ext client comp [query] None t) as [[r t1] ev1] eqn:E.
  unfold tables_after, events, outcome in *. simpl in Hf, He. subst t1.
  unfold bind at 1. unfold logger at 1, emit at 1.
  unfold bind at 1, attempt at 1. rewrite E. simpl fst.
  destruct r as [[[|v [|v' vs]]|]|e].
  - run_step. eexists; split; [reflexivity|events_ok].
  - destruct (log_chunk_count_run ext doc_name t) as (ev2 & E2 & He2).
    destruct (vector_search_run ext (embedding_str ext v) doc_name top_k t)
      as (ev3 & E3 & He3).
    unfold bind, logger, emit. rewrite E2, E3. simpl.
    eexists; split; [reflexivity|events_ok].
  - run_step. eexists; split; [reflexivity|events_ok].
  - run_step. eexists; split; [reflexivity|events_ok].
  - run_step. eexists; split; [reflexivity|events_ok].
Qed.

(** ** The rows of the query *)

Lemma map_result_Forall2 {A B : Type} (f : A -> Result B) l bs :
  map_result f l = Return bs -> Forall2 (fun a b => f a = Return b) l bs.
Proof.
  revert bs. induction l as [|a l IH]; simpl; intros bs H.
  - inversion H. constructor.
  - destruct (f a) as [b|e] eqn:Ea; [|discriminate].
    destruct (map_result f l) as [bs'|e]; [|discriminate].
    inversion H; subst. constructor; auto.
Qed.

Lemma Forall2_length_eq {A B : Type} (P : A -> B -> Prop) l l' :
  Forall2 P l l' -> List.length l = List.length l'.
Proof. induction 1; simpl; congruence. Qed.

Lemma Forall2_right {A B : Type} (P : A -> B -> Prop) (Q : B -> Prop) l l' :
  Forall2 P l l' -> (forall a b, In a l -> P a b -> Q b) -> Forall Q l'.
Proof.
  induction 1; intros HQ; constructor.
  - eapply HQ; [left; reflexivity|eassumption].
  - apply IHForall2. intros a b Ha. apply HQ. right. exact Ha.
Qed.

Lemma similarity_leb_total a b :
  similarity_leb a b = false -> similarity_leb b a = true.
Proof.
  destruct a as [x|], b as [y|]; simpl; try congruence.
  intros H. apply Qle_bool_iff.
  destruct (Qlt_le_dec y x) as [Hlt|Hle].
  - apply Qlt_le_weak. exact Hlt.
  - apply Qle_bool_iff in Hle. congruence.
Qed.

Lemma similarity_leb_trans a b c :
  similarity_leb a b = true -> similarity_leb b c = true -> similarity_leb a c = true.
Proof.
  destruct a as [x|], b as [y|], c as [z|]; simpl; try congruence.
  rewrite !Qle_bool_iff. apply Qle_trans.
Qed.

Lemma insert_by_similarity_perm r l : Permutation (insert_by_similarity r l) (r :: l).
Proof.
  induction l as [|x l IH]; simpl.
  - apply Permutation_refl.
  - destruct (similarity_leb (r3 r) (r3 x)).
    + apply Permutation_refl.
    + eapply Permutation_trans; [apply perm_skip; exact IH|apply perm_swap].
Qed.

Lemma order_by_similarity_perm l : Permutation (order_by_similarity l) l.
Proof.
  induction l as [|r l IH]; simpl.
  - constructor.
  - eapply Permutation_trans; [apply insert_by_similarity_perm|].
    apply perm_skip. exact IH.
Qed.

Lemma insert_by_similarity_sorted r l :
  StronglySorted row_le l -> StronglySorted row_le (insert_by_similarity r l).
Proof.
  induction 1 as [|x l Hs IH Hx]; simpl.
  - repeat constructor.
  - destruct (similarity_leb (r3 r) (r3 x)) eqn:E.
    + constructor; [constructor; assumption|].
      constructor; [exact E|].
      eapply Forall_impl; [|exact Hx].
      intros y Hy. unfold row_le in *. eapply similarity_leb_trans; eassumption.
    + constructor; [exact IH|].
      apply similarity_leb_total in E.
      eapply Permutation_Forall; [apply Permutation_sym, insert_by_similarity_perm|].
      constructor; assumption.
Qed.

Lemma order_by_similarity_sorted l : StronglySorted row_le (order_by_similarity l).
Proof.
  induction l as [|r l IH]; simpl.
  - constructor.
  - apply insert_by_similarity_sorted. exact IH.
Qed.

Lemma firstn_In {A : Type} (x : A) n l : In x (firstn n l) -> In x l.
Proof.
  revert n. induction l as [|a l IH]; intros [|n]; simpl; try tauto.
  intros [H|H]; [left; exact H|right; eapply IH; exact H].
Qed.

Lemma firstn_sorted {A : Type} (R : A -> A -> Prop) n l :
  StronglySorted R l -> StronglySorted R (firstn n l).
Proof.
  intros H. revert n. induction H as [|x l Hs IH Hx]; intros [|n]; simpl;
    try constructor.
  - apply IH.
  - apply Forall_forall. intros y Hy.
    rewrite Forall_forall in Hx. apply Hx.
    eapply firstn_In; eassumption.
Qed.

Lemma in_join_on_job_id t c j :
  In (c, j) (join_on_job_id t) ->
  In c (doc_chunks t) /\ In j (doc_ingest_jobs t) /\ job_id j = c_job_id c.
Proof.
  unfold join_on_job_id. rewrite in_flat_map.
  intros (c' & Hc & Hin). rewrite in_map_iff in Hin.
  destruct Hin as (j' & Heq & Hj). inversion Heq; subst.
  rewrite filter_In in Hj. destruct Hj as (Hj & Hid).
  apply Z.eqb_eq in Hid. auto.
Qed.

Lemma select_list_from ext query_vector doc_name t c j r :
  In (c, j) (filter (where_doc_embedded doc_name) (join_on_job_id t)) ->
  select_list ext query_vector (c, j) = Return r ->
  row_from ext query_vector doc_name t r.
Proof.
  rewrite filter_In. intros (Hin & Hw) Hs.
  apply in_join_on_job_id in Hin. destruct Hin as (Hc & Hj & Hid).
  unfold where_doc_embedded in Hw. simpl in Hw.
  apply andb_true_iff in Hw. destruct Hw as (Hname & Hvec).
  apply String.eqb_eq in Hname.
  unfold select_list in Hs.
  destruct (embed_vector c) as [v|] eqn:Ev; [|discriminate].
  destruct (vector_distance ext v query_vector) as [d|e] eqn:Ed; [|discriminate].
  inversion Hs; subst r.
  exists c, j, v, d. repeat split; auto.
Qed.

Lemma search_rows_from ext query_vector doc_name top_k t rows :
  search_rows ext query_vector doc_name top_k t = Return rows ->
  Forall (row_from ext query_vector doc_name t) rows.
Proof.
  unfold search_rows, fetch_first.
  destruct (map_result _ _) as [sel|e] eqn:E; [|discriminate].
  intros H. inversion H; subst rows. clear H.
  apply map_result_Forall2 in E.
  assert (Hsel : Forall (row_from ext query_vector doc_name t) sel).
  { eapply Forall2_right; [exact E|].
    intros [c j] r Hin Hr. eapply select_list_from; eassumption. }
  apply Forall_forall. intros r Hr.
  apply firstn_In in Hr.
  eapply Permutation_in in Hr; [|apply order_by_similarity_perm].
  rewrite Forall_forall in Hsel. auto.
Qed.

Lemma search_rows_sorted ext query_vector doc_name top_k t rows :
  search_rows ext query_vector doc_name top_k t = Return rows ->
  StronglySorted row_le rows.
Proof.
  unfold search_rows, fetch_first.
  destruct (map_result _ _) as [sel|e]; [|discriminate].
  intros H. inversion H. apply firstn_sorted, order_by_similarity_sorted.
Qed.

Lemma search_rows_length ext query_vector doc_name top_k t rows :
  search_rows ext query_vector doc_name top_k t = Return rows ->
  List.length rows
  = Nat.min (Z.to_nat top_k)
            (List.length (filter (where_doc_embedded doc_name) (join_on_job_id t))).
Proof.
  unfold search_rows, fetch_first.
  destruct (map_result _ _) as [sel|e] eqn:E; [|discriminate].
  intros H. inversion H; subst rows. clear H.
  apply map_result_Forall2, Forall2_length_eq in E.
  rewrite length_firstn.
  rewrite (Permutation_length (order_by_similarity_perm sel)).
  congruence.
Qed.

(** With job identifiers unique, a chunk joins with the one job that owns
    it, so the joined rows that pass the filter are as many as the
    embedded chunks of the document. *)
Lemma owning_job_count doc_name x jobs :
  NoDup (map job_id jobs) ->
  List.length (filter (fun j => Z.eqb (job_id j) x && String.eqb (object_name j) doc_name) jobs)
  = if existsb (fun j => Z.eqb (job_id j) x && String.eqb (object_name j) doc_name) jobs
    then 1%nat else 0%nat.
Proof.
  induction jobs as [|j jobs IH]; simpl; intros Hnd; [reflexivity|].
  inversion Hnd as [|? ? Hnotin Hnd']; subst.
  specialize (IH Hnd').
  destruct (Z.eqb (job_id j) x) eqn:Eid; simpl.
  - apply Z.eqb_eq in Eid.
    assert (Hnone : forall p, filter (fun j' => Z.eqb (job_id j') x && p j') jobs = []).
    { intros p. clear IH Hnd Hnd'.
      induction jobs as [|j' jobs IHj]; simpl; [reflexivity|].
      destruct (Z.eqb (job_id j') x) eqn:E'; simpl.
      - exfalso. apply Hnotin. left. apply Z.eqb_eq in E'. congruence.
      - apply IHj. intros Hin. apply Hnotin. right. exact Hin. }
    destruct (String.eqb (object_name j) doc_name); simpl.
    + rewrite Hnone. reflexivity.
    + exact IH.
  - exact IH.
Qed.

Lemma joined_rows_of_chunk doc_name c jobs :
  List.length
    (filter (where_doc_embedded doc_name)
            (map (fun j => (c, j)) (filter (fun j => Z.eqb (job_id j) (c_job_id c)) jobs)))
  = if is_not_null (embed_vector c)
    then List.length (filter (fun j => Z.eqb (job_id j) (c_job_id c)
                                       && String.eqb (object_name j) doc_name) jobs)
    else 0%nat.
Proof.
  induction jobs as [|j jobs IH]; simpl.
  - destruct (is_not_null (embed_vector c)); reflexivity.
  - destruct (Z.eqb (job_id j) (c_job_id c)); simpl; [|exact IH].
    unfold where_doc_embedded at 1. simpl.
    destruct (String.eqb (object_name j) doc_name); simpl.
    + destruct (is_not_null (embed_vector c)); simpl.
      * f_equal. exact IH.
      * exact IH.
    + exact IH.
Qed.

Lemma joined_count t doc_name :
  NoDup (map job_id (doc_ingest_jobs t)) ->
  List.length (filter (where_doc_embedded doc_name) (join_on_job_id t))
  = available_embedded_chunks t doc_name.
Proof.
  intros Hnd. unfold join_on_job_id, available_embedded_chunks, belongs_to.
  induction (doc_chunks t) as [|c cs IH]; simpl; [reflexivity|].
  rewrite filter_app, length_app, IH, joined_rows_of_chunk.
  rewrite (owning_job_count doc_name (c_job_id c) _ Hnd).
  destruct (existsb _ (doc_ingest_jobs t)); simpl;
    destruct (is_not_null (embed_vector c)); reflexivity.
Qed.

(** ** Strings *)

Lemma substring_nil n m : substring n m EmptyString = EmptyString.
Proof. destruct n, m; reflexivity. Qed.

Lemma substring_0_length n s : (String.length (substring 0 n s) <= n)%nat.
Proof.
  revert s. induction n as [|n IH]; intros [|a s]; simpl; try lia.
  specialize (IH s). lia.
Qed.

Lemma substring_0_prefix n s : prefix (substring 0 n s) s = true.
Proof.
  revert s. induction n as [|n IH]; intros [|a s]; simpl; try reflexivity.
  destruct (ascii_dec a a) as [_|Hne]; [apply IH|congruence].
Qed.

Lemma or_str_some_empty s : or_str (Some s) EmptyString = s.
Proof. destruct s; reflexivity. Qed.

Lemma retrieved_text c :
  or_str (dbms_lob_substr (chunk_text c) 8000 1) EmptyString
  = substring 0 (Z.to_nat 8000) (stored_text c).
Proof.
  unfold dbms_lob_substr, stored_text.
  destruct (chunk_text c) as [s|].
  - change (or_str (Some (substring 0 (Z.to_nat 8000) s)) EmptyString
            = substring 0 (Z.to_nat 8000) s).
    apply or_str_some_empty.
  - symmetry. apply substring_nil.
Qed.

Lemma assemble_join results : rag_context results = assemble results.
Proof.
  unfold rag_context, str_join.
  induction results as [|r [|r' rest] IH]; simpl in *; try reflexivity.
  rewrite IH. reflexivity.
Qed.

(** ** Retrieval: failures *)

(** C1. When the embedding call raises, or returns a number of vectors
    other than one, or the similarity query raises, [search_chunks_by_doc]
    returns the empty list and raises nothing. *)
Theorem search_failure_returns_empty ext client comp doc_name query top_k t :
  retrieval_fails ext client comp doc_name query top_k t ->
  outcome (search_chunks_by_doc ext client comp doc_name query top_k t) = Return [].
Proof.
  intros Hfail.
  destruct (search_run ext client comp doc_name query top_k t) as (evs & E & _).
  rewrite E. unfold outcome at 1. simpl. f_equal.
  unfold search_result.
  destruct Hfail as [(e & He) | [(vs & Hvs & Hcount) | (v & e & Hv & Hq)]].
  - rewrite He. reflexivity.
  - rewrite Hvs. destruct vs as [[|v [|v' l]]|]; simpl in Hcount;
      try reflexivity. congruence.
  - rewrite Hv, Hq. reflexivity.
Qed.

Lemma search_failure_returns_empty_witness :
  (retrieval_fails (demo_external demo_embed_down no_fault) demo_client None
                   "guide.pdf" "what is X" 2 demo_tables
   /\ outcome (search_chunks_by_doc (demo_external demo_embed_down no_fault)
                 demo_client None "guide.pdf" "what is X" 2 demo_tables) = Return [])
  /\ (retrieval_fails (demo_external demo_embed_two no_fault) demo_client None
                      "guide.pdf" "what is X" 2 demo_tables
      /\ outcome (search_chunks_by_doc (demo_external demo_embed_two no_fault)
                    demo_client None "guide.pdf" "what is X" 2 demo_tables) = Return [])
  /\ (retrieval_fails (demo_external demo_embed search_fault) demo_client None
                      "guide.pdf" "what is X" 2 demo_tables
      /\ outcome (search_chunks_by_doc (demo_external demo_embed search_fault)
                    demo_client None "guide.pdf" "what is X" 2 demo_tables) = Return []).
Proof.
  assert (H1 : retrieval_fails (demo_external demo_embed_down no_fault) demo_client None
                               "guide.pdf" "what is X" 2 demo_tables).
  { left. exists service_down. reflexivity. }
  assert (H2 : retrieval_fails (demo_external demo_embed_two no_fault) demo_client None
                               "guide.pdf" "what is X" 2 demo_tables).
  { right; left. exists (Some [[1 # 2]; [1 # 3]]). split; [reflexivity|].
    simpl. discriminate. }
  assert (H3 : retrieval_fails (demo_external demo_embed search_fault) demo_client None
                               "guide.pdf" "what is X" 2 demo_tables).
  { right; right. exists [1 # 2], (Exception "DatabaseError" "connection lost").
    split; reflexivity. }
  split; [|split].
  - split; [exact H1|].
    exact (search_failure_returns_empty _ _ _ _ _ _ _ H1).
  - split; [exact H2|].
    exact (search_failure_returns_empty _ _ _ _ _ _ _ H2).
  - split; [exact H3|].
    exact (search_failure_returns_empty _ _ _ _ _ _ _ H3).
Defined.

(** ** Retrieval: what is returned *)

Lemma search_result_rows ext client comp doc_name query top_k t :
  search_result ext client comp doc_name query top_k t = []
  \/ exists v rows,
       outcome (get_embeddings ext client comp [query] None t) = Return (Some [v])
       /\ search_rows ext (embedding_str ext v) doc_name top_k t = Return rows
       /\ search_result ext client comp doc_name query top_k t = map result_of_row rows.
Proof.
  unfold search_result.
  destruct (outcome (get_embeddings ext client comp [query] None t))
    as [[[|v [|v' l]]|]|e]; try (left; reflexivity).
  unfold search_statement. rewrite execute_query_select.
  destruct (acquire_fault ext sql); [left; reflexivity|].
  destruct (execute_fault ext sql); [left; reflexivity|].
  destruct (search_rows ext (embedding_str ext v) doc_name top_k t) as [rows|e] eqn:E;
    [|left; reflexivity].
  right. exists v, rows. auto.
Qed.

(** C2. With a positive [top_k], a successful embedding and a successful
    query, the result has [min(top_k, n)] elements, [n] the number of
    chunks of the document that carry a vector.  Job identifiers are the
    key of [doc_ingest_jobs]. *)
Theorem search_length ext client comp doc_name query top_k t v fetched :
  NoDup (map job_id (doc_ingest_jobs t)) ->
  (0 < top_k)%Z ->
  outcome (get_embeddings ext client comp [query] None t) = Return (Some [v]) ->
  outcome (execute_query ext
             (search_statement ext (embedding_str ext v) doc_name top_k)
             false true false t) = Return fetched ->
  exists result,
    outcome (search_chunks_by_doc ext client comp doc_name query top_k t) = Return result
    /\ Z.of_nat (List.length result)
       = Z.min top_k (Z.of_nat (available_embedded_chunks t doc_name)).
Proof.
  intros Hkey Hk Hv Hq.
  destruct (search_run ext client comp doc_name query top_k t) as (evs & E & _).
  rewrite E. unfold outcome at 1. simpl.
  eexists. split; [reflexivity|].
  unfold search_result. rewrite Hv, Hq.
  unfold search_statement in Hq. rewrite execute_query_select in Hq.
  destruct (acquire_fault ext sql); [discriminate|].
  destruct (execute_fault ext sql); [discriminate|].
  destruct (search_rows ext (embedding_str ext v) doc_name top_k t) as [rows|e] eqn:Er;
    [|discriminate].
  inversion Hq; subst fetched. simpl.
  rewrite length_map, (search_rows_length _ _ _ _ _ _ Er), (joined_count _ _ Hkey).
  lia.
Qed.

Lemma search_length_witness :
  exists result,
    outcome (search_chunks_by_doc demo_ext demo_client None
               "guide.pdf" "what is X" 2 demo_tables) = Return result
    /\ Z.of_nat (List.length result)
       = Z.min 2 (Z.of_nat (available_embedded_chunks demo_tables "guide.pdf")).
Proof.
  refine (search_length demo_ext demo_client None "guide.pdf" "what is X" 2
            demo_tables [1 # 2] _ _ _ _ _).
  - simpl. repeat constructor; simpl; intuition discriminate.
  - lia.
  - reflexivity.
  - reflexivity.
Defined.

Lemma in_join_on_job_id_intro t c j :
  In c (doc_chunks t) -> In j (doc_ingest_jobs t) -> job_id j = c_job_id c ->
  In (c, j) (join_on_job_id t).
Proof.
  intros Hc Hj Hid. unfold join_on_job_id. rewrite in_flat_map.
  exists c. split; [exact Hc|].
  apply in_map. rewrite filter_In. split; [exact Hj|].
  apply Z.eqb_eq. exact Hid.
Qed.

Lemma Forall2_left_in {A B : Type} (P : A -> B -> Prop) l l' a :
  Forall2 P l l' -> In a l -> exists b, In b l' /\ P a b.
Proof.
  induction 1 as [|x y l l' Hxy HF IH]; simpl; [tauto|].
  intros [Ha|Ha].
  - subst. exists y. auto.
  - destruct (IH Ha) as (b & Hb & Hab). exists b. auto.
Qed.

Lemma sorted_results rows :
  StronglySorted row_le rows ->
  Forall (fun r => exists d, r3 r = Some d) rows ->
  StronglySorted similarity_le (map result_of_row rows).
Proof.
  induction 1 as [|r rows Hs IH Hr]; simpl; intros HF; [constructor|].
  inversion HF as [|? ? (d & Hd) HF']; subst.
  constructor; [apply IH; exact HF'|].
  apply Forall_map. rewrite Forall_forall in *.
  intros r' Hin. destruct (HF' r' Hin) as (d' & Hd').
  specialize (Hr r' Hin). unfold row_le in Hr.
  unfold similarity_le. simpl. rewrite Hd, Hd' in *. simpl in Hr.
  apply Qle_bool_iff. exact Hr.
Qed.

(** The first row of the search is at least as close as every chunk of
    the document that carries a vector. *)
Lemma search_rows_head ext query_vector doc_name top_k t r rows c j v :
  search_rows ext query_vector doc_name top_k t = Return (r :: rows) ->
  In c (doc_chunks t) -> In j (doc_ingest_jobs t) ->
  job_id j = c_job_id c -> object_name j = doc_name ->
  embed_vector c = Some v ->
  exists d0 d,
    r3 r = Some d0 /\ vector_distance ext v query_vector = Return d /\ (d0 <= d)%Q.
Proof.
  intros Hs Hc Hj Hid Hname Hv.
  pose proof (search_rows_from _ _ _ _ _ _ Hs) as Hfrom.
  apply Forall_inv in Hfrom.
  destruct Hfrom as (c0 & j0 & v0 & d0 & _ & _ & _ & _ & _ & _ & Hr). subst r.
  unfold search_rows, fetch_first in Hs.
  destruct (map_result _ _) as [sel|e] eqn:E; [|discriminate].
  inversion Hs as [Hfirst]. clear Hs.
  apply map_result_Forall2 in E.
  assert (Hin : In (c, j) (filter (where_doc_embedded doc_name) (join_on_job_id t))).
  { rewrite filter_In. split; [apply in_join_on_job_id_intro; assumption|].
    unfold where_doc_embedded. simpl. rewrite Hv, Hname, String.eqb_refl. reflexivity. }
  destruct (Forall2_left_in _ _ _ _ E Hin) as (row & Hrow & Hsel).
  unfold select_list in Hsel. rewrite Hv in Hsel.
  destruct (vector_distance ext v query_vector) as [d|e] eqn:Ed; [|discriminate].
  inversion Hsel; subst row. clear Hsel.
  exists d0, d. split; [reflexivity|]. split; [reflexivity|].
  pose proof (order_by_similarity_sorted sel) as Hsorted.
  apply (Permutation_in _ (Permutation_sym (order_by_similarity_perm sel))) in Hrow.
  destruct (order_by_similarity sel) as [|s0 sorted]; [destruct Hrow|].
  destruct (Z.to_nat top_k) as [|n]; simpl in Hfirst; [discriminate|].
  inversion Hfirst; subst s0.
  apply StronglySorted_inv in Hsorted. destruct Hsorted as (_ & Hall).
  destruct Hrow as [Hrow|Hrow].
  - assert (Hdd : Some d0 = Some d) by exact (f_equal r3 Hrow).
    inversion Hdd. apply Qle_refl.
  - rewrite Forall_forall in Hall. specialize (Hall _ Hrow).
    unfold row_le in Hall. simpl in Hall. apply Qle_bool_iff. exact Hall.
Qed.

(** C3. The result is ordered by the distance between each chunk's vector
    and the query vector, non-decreasing; its first element is at least as
    close as every embedded chunk of the document. *)
Theorem search_ordered_by_distance ext client comp doc_name query top_k t :
  exists result,
    outcome (search_chunks_by_doc ext client comp doc_name query top_k t) = Return result
    /\ StronglySorted similarity_le result
    /\ (result = []
        \/ exists query_embedding,
             outcome (get_embeddings ext client comp [query] None t)
             = Return (Some [query_embedding])
             /\ Forall (fun r =>
                          exists c v d,
                            In c (doc_chunks t)
                            /\ c_job_id c = qr_job_id r /\ chunk_id c = qr_chunk_id r
                            /\ embed_vector c = Some v
                            /\ vector_distance ext v (embedding_str ext query_embedding)
                               = Return d
                            /\ qr_similarity r = Some d) result
             /\ forall first rest c j v,
                  result = first :: rest ->
                  In c (doc_chunks t) -> In j (doc_ingest_jobs t) ->
                  job_id j = c_job_id c -> object_name j = doc_name ->
                  embed_vector c = Some v ->
                  exists d0 d,
                    qr_similarity first = Some d0
                    /\ vector_distance ext v (embedding_str ext query_embedding)
                       = Return d
                    /\ (d0 <= d)%Q).
Proof.
  destruct (search_run ext client comp doc_name query top_k t) as (evs & E & _).
  rewrite E. unfold outcome at 1. simpl.
  eexists. split; [reflexivity|].
  destruct (search_result_rows ext client comp doc_name query top_k t)
    as [Hnil | (vq & rows & Hvq & Hrows & Hres)].
  - rewrite Hnil. split; [constructor|left; reflexivity].
  - rewrite Hres.
    pose proof (search_rows_from _ _ _ _ _ _ Hrows) as Hfrom.
    split.
    + apply sorted_results; [eapply search_rows_sorted; exact Hrows|].
      eapply Forall_impl; [|exact Hfrom].
      intros r (c & j & v & d & _ & _ & _ & _ & _ & _ & Hr). subst r.
      exists d. reflexivity.
    + right. exists vq. split; [exact Hvq|]. split.
      * apply Forall_map. eapply Forall_impl; [|exact Hfrom].
        intros r (c & j & v & d & Hc & _ & _ & _ & Hv & Hd & Hr). subst r.
        exists c, v, d. simpl. auto 10.
      * intros first rest c j v Hfirst Hc Hj Hid Hname Hv.
        destruct rows as [|r rows']; [discriminate|].
        simpl in Hfirst. inversion Hfirst; subst first rest.
        destruct (search_rows_head _ _ _ _ _ _ _ _ _ _ Hrows Hc Hj Hid Hname Hv)
          as (d0 & d & Hd0 & Hd & Hle).
        exists d0, d. simpl. auto.
Qed.

(** C4. Every result comes from a chunk with a vector whose owning job
    has the requested name. *)
Theorem search_only_embedded_chunks_of_document ext client comp doc_name query top_k t :
  exists result,
    outcome (search_chunks_by_doc ext client comp doc_name query top_k t) = Return result
    /\ Forall (fun r =>
                 exists c j,
                   In c (doc_chunks t) /\ In j (doc_ingest_jobs t)
                   /\ job_id j = c_job_id c
                   /\ object_name j = doc_name
                   /\ embed_vector c <> None
                   /\ qr_job_id r = c_job_id c /\ qr_chunk_id r = chunk_id c
                   /\ qr_object_name r = doc_name) result.
Proof.
  destruct (search_run ext client comp doc_name query top_k t) as (evs & E & _).
  rewrite E. unfold outcome at 1. simpl.
  eexists. split; [reflexivity|].
  destruct (search_result_rows ext client comp doc_name query top_k t)
    as [Hnil | (vq & rows & Hvq & Hrows & Hres)].
  - rewrite Hnil. constructor.
  - rewrite Hres. apply Forall_map.
    eapply Forall_impl; [|exact (search_rows_from _ _ _ _ _ _ Hrows)].
    intros r (c & j & v & d & Hc & Hj & Hid & Hname & Hv & Hd & Hr). subst r.
    exists c, j.
    cbn [result_of_row qr_job_id qr_chunk_id qr_object_name r0 r1 r4].
    rewrite or_str_some_empty.
    repeat split; auto. congruence.
Qed.

Lemma NoDup_map_inj {A B : Type} (f : A -> B) l a b :
  NoDup (map f l) -> In a l -> In b l -> f a = f b -> a = b.
Proof.
  induction l as [|x l IH]; simpl; [tauto|].
  intros Hnd Ha Hb Hf. inversion Hnd as [|? ? Hx Hnd']; subst.
  destruct Ha as [Ha|Ha], Hb as [Hb|Hb]; subst; auto.
  - exfalso. apply Hx. rewrite Hf. apply in_map. exact Hb.
  - exfalso. apply Hx. rewrite <- Hf. apply in_map. exact Ha.
Qed.

(** With the keys of the two tables, the same in the negative: a stored
    chunk that a result names has a vector, and the job that owns it has
    the requested name. *)
Lemma search_excludes_other_chunks ext client comp doc_name query top_k t result r c :
  NoDup (map job_id (doc_ingest_jobs t)) ->
  NoDup (map (fun c => (c_job_id c, chunk_id c)) (doc_chunks t)) ->
  outcome (search_chunks_by_doc ext client comp doc_name query top_k t) = Return result ->
  In r result ->
  In c (doc_chunks t) -> c_job_id c = qr_job_id r -> chunk_id c = qr_chunk_id r ->
  embed_vector c <> None
  /\ forall j, In j (doc_ingest_jobs t) -> job_id j = c_job_id c ->
               object_name j = doc_name.
Proof.
  intros Hjobs Hchunks Hres Hr Hc Hjid Hcid.
  destruct (search_run ext client comp doc_name query top_k t) as (evs & E & _).
  rewrite E in Hres. unfold outcome in Hres. simpl in Hres.
  inversion Hres; subst result. clear Hres.
  destruct (search_result_rows ext client comp doc_name query top_k t)
    as [Hnil | (vq & rows & Hvq & Hrows & Hmap)].
  - rewrite Hnil in Hr. destruct Hr.
  - rewrite Hmap in Hr. apply in_map_iff in Hr.
    destruct Hr as (row & Hrow & Hin).
    pose proof (search_rows_from _ _ _ _ _ _ Hrows) as Hfrom.
    rewrite Forall_forall in Hfrom.
    destruct (Hfrom row Hin)
      as (c' & j' & v & d & Hc' & Hj' & Hid' & Hname' & Hv' & _ & Heq).
    subst row r. simpl in Hjid, Hcid.
    assert (c = c').
    { eapply (NoDup_map_inj (fun c => (c_job_id c, chunk_id c)));
        [exact Hchunks|exact Hc|exact Hc'|].
      simpl. congruence. }
    subst c'. split; [congruence|].
    intros j Hj Hid.
    assert (j = j').
    { eapply (NoDup_map_inj job_id); [exact Hjobs|exact Hj|exact Hj'|congruence]. }
    subst j'. exact Hname'.
Qed.

(** C5. The text of every result is the first 8000 characters of the
    stored text of its chunk: a prefix of it, at most 8000 characters
    long. *)
Theorem search_text_bounded ext client comp doc_name query top_k t :
  exists result,
    outcome (search_chunks_by_doc ext client comp doc_name query top_k t) = Return result
    /\ Forall (fun r =>
                 exists c,
                   In c (doc_chunks t)
                   /\ c_job_id c = qr_job_id r /\ chunk_id c = qr_chunk_id r
                   /\ qr_chunk_text r = substring 0 (Z.to_nat 8000) (stored_text c)
                   /\ prefix (qr_chunk_text r) (stored_text c) = true
                   /\ (Z.of_nat (String.length (qr_chunk_text r)) <= 8000)%Z) result.
Proof.
  destruct (search_run ext client comp doc_name query top_k t) as (evs & E & _).
  rewrite E. unfold outcome at 1. simpl.
  eexists. split; [reflexivity|].
  destruct (search_result_rows ext client comp doc_name query top_k t)
    as [Hnil | (vq & rows & Hvq & Hrows & Hres)].
  - rewrite Hnil. constructor.
  - rewrite Hres. apply Forall_map.
    eapply Forall_impl; [|exact (search_rows_from _ _ _ _ _ _ Hrows)].
    intros r (c & j & v & d & Hc & Hj & Hid & Hname & Hv & Hd & Hr). subst r.
    exists c. cbn [result_of_row qr_job_id qr_chunk_id qr_chunk_text r0 r1 r2].
    rewrite retrieved_text.
    split; [exact Hc|]. split; [reflexivity|]. split; [reflexivity|].
    split; [reflexivity|]. split; [apply substring_0_prefix|].
    pose proof (substring_0_length (Z.to_nat 8000) (stored_text c)). lia.
Qed.

(** C9. [search_chunks_by_doc] leaves the tables as they are, and what it
    sends to the database are queries without a commit. *)
Theorem search_read_only ext client comp doc_name query top_k t :
  tables_after (search_chunks_by_doc ext client comp doc_name query top_k t) = t
  /\ Forall fetch_only
            (events (search_chunks_by_doc ext client comp doc_name query top_k t)).
Proof.
  destruct (search_run ext client comp doc_name query top_k t) as (evs & E & He).
  rewrite E. split; [reflexivity|].
  unfold events. simpl.
  eapply Forall_impl; [|exact He].
  intros ev. apply retrieval_event_fetch_only.
Qed.

(** ** The RAG branch of the tab *)

Lemma client_and_chunks_run ext inp t :
  exists evs,
    client_and_chunks ext inp t = (outcome (client_and_chunks ext inp t), t, evs)
    /\ Forall (fun ev => retrieval_event ev = true) evs.
Proof.
  unfold client_and_chunks, get_oci_client.
  destruct (session_state inp) as [s|].
  - destruct (search_run ext (oci_client s) (session_compartment_id s)
                (selected_doc inp) (query inp) (top_k inp) t) as (evs & E & He).
    unfold bind, ret, outcome. simpl. rewrite E. simpl.
    eexists; split; [reflexivity|events_ok].
  - unfold init_client.
    destruct (oci_config_from_file ext) as [config|e]; run_step.
    + destruct (new_inference_client ext _) as [client|e]; simpl.
      * match goal with
        | |- context [search_chunks_by_doc ext ?c ?comp ?d ?q ?k t] =>
            destruct (search_run ext c comp d q k t) as (evs & E & He)
        end.
        rewrite E. simpl.
        eexists; split; [reflexivity|events_ok].
      * eexists; split; [reflexivity|events_ok].
    + eexists; split; [reflexivity|events_ok].
Qed.

Lemma filter_none {A : Type} (p : A -> bool) l :
  Forall (fun x => p x = false) l -> filter p l = [].
Proof.
  induction 1 as [|x l Hx _ IH]; simpl; [reflexivity|].
  rewrite Hx. exact IH.
Qed.

Lemma show_chunks_events start chunks (code : QueryResult -> string) t :
  Forall (fun ev => is_chat_call ev = false)
         (events (for_enumerate start chunks (fun i c => show_chunk i c (code c)) t)).
Proof.
  revert start t. induction chunks as [|c chunks IH]; intros start t; simpl.
  - constructor.
  - unfold bind, show_chunk.
    destruct (qr_similarity c); run_step; [|constructor].
    specialize (IH (S start) t).
    destruct (for_enumerate (S start) chunks _ t) as [[r t2] ev2].
    simpl in *. constructor; [reflexivity|exact IH].
Qed.

Lemma show_answer_events answer chunks t :
  Forall (fun ev => is_chat_call ev = false) (events (show_answer answer chunks t)).
Proof.
  unfold show_answer.
  destruct answer as [[|a text]|]; try (run_step; repeat constructor).
  pose proof (show_chunks_events 1 chunks (fun c => preview (qr_chunk_text c)) t) as H.
  unfold bind, emit.
  destruct (for_enumerate 1 chunks _ t) as [[r t2] ev2].
  unfold events in *. simpl in *.
  repeat (constructor; [reflexivity|]). exact H.
Qed.

Lemma chat_with_context_run
    ext config comp context question model_id max_tokens temperature t :
  exists evs,
    chat_with_context ext config comp context question model_id max_tokens temperature t
    = (Return (expected_answer ext config comp context question model_id
                               max_tokens temperature), t, evs).
Proof.
  unfold chat_with_context, expected_answer.
  run_step.
  destruct (new_inference_client ext _) as [client|e]; simpl.
  - destruct (chat ext client _) as [response|e]; simpl.
    + destruct (probe_chat response) as [reply|]; simpl; eexists; reflexivity.
    + eexists; reflexivity.
  - eexists; reflexivity.
Qed.

Lemma probe_chat_finds_reply response reply :
  model_reply response reply -> probe_chat response = Some reply.
Proof.
  unfold probe_chat, probe_chat_resp, no_chat_reply, no_message_content.
  intros [data chat_resp m Hd Hc Hm Hr
         | data chat_resp Hd Hc Hm Hr
         | data chat_resp Hd Hc Hm Hcc Hr
         | data Hd Hn Hr
         | Hn Hr].
  - rewrite Hd, Hc, Hm. destruct m as [mc]. simpl in Hr. rewrite Hr. reflexivity.
  - rewrite Hd, Hc, Hr. unfold no_message_content in Hm.
    destruct (cr_message chat_resp) as [[mc]|]; simpl in Hm; [rewrite Hm|]; reflexivity.
  - rewrite Hd, Hc, Hcc, Hr. unfold no_message_content in Hm.
    destruct (cr_message chat_resp) as [[mc]|]; simpl in Hm; [rewrite Hm|]; reflexivity.
  - rewrite Hd, Hr. unfold no_chat_reply, no_message_content in Hn.
    destruct (data_chat_response data) as [chat_resp|]; [|reflexivity].
    destruct Hn as (Hm & Hcc & Hct). rewrite Hcc, Hct.
    destruct (cr_message chat_resp) as [[mc]|]; simpl in Hm; [rewrite Hm|]; reflexivity.
  - rewrite Hr. destruct (resp_data response) as [data|]; [|reflexivity].
    destruct Hn as (Hn & Hdc). rewrite Hdc.
    unfold no_chat_reply, no_message_content in Hn.
    destruct (data_chat_response data) as [chat_resp|]; [|reflexivity].
    destruct Hn as (Hm & Hcc & Hct). rewrite Hcc, Hct.
    destruct (cr_message chat_resp) as [[mc]|]; simpl in Hm; [rewrite Hm|]; reflexivity.
Qed.

Lemma probe_chat_finds_nothing response :
  no_reply_path response -> probe_chat response = None.
Proof.
  unfold probe_chat, probe_chat_resp, no_reply_path.
  intros (Hrc & Hrest). rewrite Hrc.
  destruct (resp_data response) as [data|]; [|reflexivity].
  destruct Hrest as (Hdc & Hrest). rewrite Hdc.
  destruct (data_chat_response data) as [chat_resp|]; [|reflexivity].
  destruct Hrest as (Hcc & Hct & Hm). rewrite Hcc, Hct.
  destruct (cr_message chat_resp) as [[mc]|]; simpl in Hm; [rewrite Hm|]; reflexivity.
Qed.

Lemma model_reply_or_none response :
  no_reply_path response \/ exists reply, model_reply response reply.
Proof.
  unfold no_reply_path.
  destruct (resp_data response) as [data|] eqn:Hd.
  - destruct (data_chat_response data) as [chat_resp|] eqn:Hc.
    + destruct (cr_message chat_resp) as [m|] eqn:Hm.
      * destruct (message_content m) as [v|] eqn:Hv.
        { right. exists v. eapply ReplyInMessage; eassumption. }
        assert (Hno : no_message_content chat_resp)
          by (unfold no_message_content; rewrite Hm; exact Hv).
        destruct (cr_content chat_resp) as [v|] eqn:Hcc.
        { right. exists v. eapply ReplyInChatContent; eassumption. }
        destruct (cr_text chat_resp) as [v|] eqn:Hct.
        { right. exists v. eapply ReplyInChatText; eassumption. }
        assert (Hsil : no_chat_reply data)
          by (unfold no_chat_reply; rewrite Hc; auto).
        destruct (data_content data) as [v|] eqn:Hdc.
        { right. exists v. eapply ReplyInDataContent; eassumption. }
        destruct (resp_content response) as [v|] eqn:Hrc.
        { right. exists v. apply ReplyInContent; [rewrite Hd; auto|exact Hrc]. }
        left. auto.
      * assert (Hno : no_message_content chat_resp)
          by (unfold no_message_content; rewrite Hm; exact I).
        destruct (cr_content chat_resp) as [v|] eqn:Hcc.
        { right. exists v. eapply ReplyInChatContent; eassumption. }
        destruct (cr_text chat_resp) as [v|] eqn:Hct.
        { right. exists v. eapply ReplyInChatText; eassumption. }
        assert (Hsil : no_chat_reply data)
          by (unfold no_chat_reply; rewrite Hc; auto).
        destruct (data_content data) as [v|] eqn:Hdc.
        { right. exists v. eapply ReplyInDataContent; eassumption. }
        destruct (resp_content response) as [v|] eqn:Hrc.
        { right. exists v. apply ReplyInContent; [rewrite Hd; auto|exact Hrc]. }
        left. auto.
    + assert (Hsil : no_chat_reply data)
        by (unfold no_chat_reply; rewrite Hc; exact I).
      destruct (data_content data) as [v|] eqn:Hdc.
      { right. exists v. eapply ReplyInDataContent; eassumption. }
      destruct (resp_content response) as [v|] eqn:Hrc.
      { right. exists v. apply ReplyInContent; [rewrite Hd; auto|exact Hrc]. }
      left. auto.
  - destruct (resp_content response) as [v|] eqn:Hrc.
    { right. exists v. apply ReplyInContent; [rewrite Hd; exact I|exact Hrc]. }
    left. auto.
Qed.

(** C8. [chat_with_context] always returns, and never raises.  It returns
    [None] when the client cannot be built, when the call raises, and when
    the response carries a reply in none of its places; otherwise it
    returns the reply of the model, the text the response carries.  Every
    response is of one of these two kinds. *)
Theorem chat_with_context_never_raises
    ext config comp context question model_id max_tokens temperature t :
  exists answer evs,
    chat_with_context ext config comp context question model_id max_tokens temperature t
    = (Return answer, t, evs)
    /\ (forall e,
          new_inference_client ext (chat_client_config ext config) = Raise e ->
          answer = None)
    /\ (forall client e,
          new_inference_client ext (chat_client_config ext config) = Return client ->
          chat ext client (chat_request comp context question model_id
                                        max_tokens temperature) = Raise e ->
          answer = None)
    /\ (forall client response,
          new_inference_client ext (chat_client_config ext config) = Return client ->
          chat ext client (chat_request comp context question model_id
                                        max_tokens temperature) = Return response ->
          (forall reply, model_reply response reply -> answer = reply)
          /\ (no_reply_path response -> answer = None)
          /\ (no_reply_path response \/ exists reply, model_reply response reply)).
Proof.
  destruct (chat_with_context_run ext config comp context question model_id
              max_tokens temperature t) as (evs & E).
  eexists. exists evs. split; [exact E|].
  unfold expected_answer, chat_client_config, chat_request.
  split; [|split].
  - intros e H. rewrite H. reflexivity.
  - intros client e Hc H. rewrite Hc, H. reflexivity.
  - intros client response Hc H. rewrite Hc, H. split; [|split].
    + intros reply Hr. rewrite (probe_chat_finds_reply _ _ Hr). reflexivity.
    + intros Hn. rewrite (probe_chat_finds_nothing _ Hn). reflexivity.
    + apply model_reply_or_none.
Qed.

Lemma chat_with_context_never_raises_witness :
  model_reply demo_reply (Some "X is a letter."%string)
  /\ outcome (chat_with_context demo_ext [] None "beta" "what is X"
                                DEFAULT_CHAT_MODEL 1024 (3 # 10) demo_tables)
     = Return (Some "X is a letter."%string).
Proof.
  assert (Hreply : model_reply demo_reply (Some "X is a letter."%string)).
  { eapply ReplyInChatText; try reflexivity; exact I. }
  split; [exact Hreply|].
  destruct (chat_with_context_never_raises demo_ext [] None "beta" "what is X"
              DEFAULT_CHAT_MODEL 1024 (3 # 10) demo_tables)
    as (answer & evs & E & _ & _ & H).
  rewrite E. unfold outcome. simpl. f_equal.
  exact (proj1 (H (mkClient [("region"%string, "us-chicago-1"%string)]) demo_reply
                  eq_refl eq_refl)
               (Some "X is a letter."%string) Hreply).
Defined.

Lemma chat_with_context_calls
    ext config comp context question model_id max_tokens temperature t client :
  new_inference_client ext
    (dict_set config "region" (getenv_default ext "OCI_REGION" DEFAULT_OCI_REGION))
  = Return client ->
  filter is_chat_call
    (events (chat_with_context ext config comp context question model_id
                               max_tokens temperature t))
  = [ChatCall (prompt_of context question)].
Proof.
  intros Hc. unfold chat_with_context. run_step. rewrite Hc. simpl.
  destruct (chat ext client _) as [response|e]; simpl.
  - destruct (probe_chat response) as [reply|]; reflexivity.
  - reflexivity.
Qed.

(** C6. For a non-empty result of the retrieval, the context handed to
    [chat_with_context] is the chunk texts in the order of the result,
    separated by a blank line; the prompt sent to the hosted service
    carries that context. *)
Theorem rag_context_joins_chunk_texts ext inp t s c chunks :
  str_truthy (query inp) = true ->
  outcome (client_and_chunks ext inp t) = Return (s, c :: chunks) ->
  on_ask_rag ext inp t
  = (let '(r, t2, ev2) :=
       (answer <- chat_with_context ext (oci_config s) (session_compartment_id s)
                    (assemble (c :: chunks)) (query inp)
                    DEFAULT_CHAT_MODEL 1024 (3 # 10) ;;
        show_answer answer (c :: chunks)) t in
     (r, t2, events (client_and_chunks ext inp t) ++ ev2))
  /\ (forall client,
        new_inference_client ext
          (dict_set (oci_config s) "region"
                    (getenv_default ext "OCI_REGION" DEFAULT_OCI_REGION))
        = Return client ->
        filter is_chat_call (events (on_ask_rag ext inp t))
        = [ChatCall (prompt_of (assemble (c :: chunks)) (query inp))]).
Proof.
  intros Hq Hret.
  destruct (client_and_chunks_run ext inp t) as (ev1 & E & He).
  rewrite Hret in E.
  assert (Hrun : on_ask_rag ext inp t
          = (let '(r, t2, ev2) :=
               (answer <- chat_with_context ext (oci_config s) (session_compartment_id s)
                            (assemble (c :: chunks)) (query inp)
                            DEFAULT_CHAT_MODEL 1024 (3 # 10) ;;
                show_answer answer (c :: chunks)) t in
             (r, t2, events (client_and_chunks ext inp t) ++ ev2))).
  { unfold on_ask_rag. rewrite Hq. cbn [negb].
    unfold bind at 1, attempt at 1. rewrite E. cbv iota beta.
    rewrite assemble_join. unfold events. simpl snd.
    destruct ((answer <- chat_with_context _ _ _ _ _ _ _ _ ;; show_answer answer _) t)
      as [[r t2] ev2].
    reflexivity. }
  split; [exact Hrun|].
  intros client Hc. rewrite Hrun.
  destruct (chat_with_context_run ext (oci_config s) (session_compartment_id s)
              (assemble (c :: chunks)) (query inp) DEFAULT_CHAT_MODEL 1024 (3 # 10) t)
    as (evc & Ec).
  pose proof (chat_with_context_calls ext (oci_config s) (session_compartment_id s)
                (assemble (c :: chunks)) (query inp) DEFAULT_CHAT_MODEL 1024 (3 # 10)
                t client Hc) as Hcalls.
  rewrite Ec in Hcalls. unfold events in Hcalls. simpl in Hcalls.
  unfold bind. rewrite Ec.
  pose proof (show_answer_events
                (expected_answer ext (oci_config s) (session_compartment_id s)
                   (assemble (c :: chunks)) (query inp) DEFAULT_CHAT_MODEL 1024 (3 # 10))
                (c :: chunks) t) as Hshow.
  destruct (show_answer _ (c :: chunks) t) as [[r t2] ev2].
  unfold events in *. simpl in Hshow. simpl snd.
  rewrite E. simpl snd.
  rewrite !filter_app, Hcalls, (filter_none _ _ Hshow).
  rewrite (filter_none is_chat_call ev1); [reflexivity|].
  eapply Forall_impl; [|exact He]. intros ev. apply retrieval_event_no_chat.
Qed.

Lemma rag_context_joins_chunk_texts_witness :
  outcome (client_and_chunks demo_ext demo_inputs demo_tables)
  = Return (demo_session, demo_hits)
  /\ filter is_chat_call (events (on_ask_rag demo_ext demo_inputs demo_tables))
     = [ChatCall (prompt_of (assemble demo_hits) "what is X")].
Proof.
  split; [reflexivity|].
  exact (proj2 (rag_context_joins_chunk_texts demo_ext demo_inputs demo_tables
                  demo_session
                  (mkQueryResult 1 2 "beta" (Some (12 # 100)) "guide.pdf")
                  [mkQueryResult 1 3 "epsilon" (Some (45 # 100)) "guide.pdf"]
                  eq_refl eq_refl)
               (oci_client demo_session) eq_refl).
Defined.

(** C7. When the retrieval hands back no chunk, the RAG branch makes no
    chat call: after the events of the retrieval it only shows that no
    answer can be generated. *)
Theorem rag_skips_chat_on_empty_retrieval ext inp t s :
  outcome (client_and_chunks ext inp t) = Return (s, []) ->
  outcome (on_ask_rag ext inp t) = Return tt
  /\ Forall (fun ev => is_chat_call ev = false) (events (on_ask_rag ext inp t))
  /\ (str_truthy (query inp) = true ->
      events (on_ask_rag ext inp t)
      = events (client_and_chunks ext inp t)
        ++ [Ui StInfo "No chunks found. Cannot generate an answer."]).
Proof.
  intros Hret.
  destruct (client_and_chunks_run ext inp t) as (ev1 & E & He).
  rewrite Hret in E.
  assert (Hquiet : Forall (fun ev => is_chat_call ev = false) ev1).
  { eapply Forall_impl; [|exact He]. intros ev. apply retrieval_event_no_chat. }
  assert (Hrun : str_truthy (query inp) = true ->
                 on_ask_rag ext inp t
                 = (Return tt, t,
                    ev1 ++ [Ui StInfo "No chunks found. Cannot generate an answer."])).
  { intros Hq. unfold on_ask_rag. rewrite Hq. cbn [negb].
    unfold bind at 1, attempt at 1. rewrite E. reflexivity. }
  destruct (str_truthy (query inp)) eqn:Hq.
  - rewrite (Hrun eq_refl), E. unfold outcome, events. simpl.
    split; [reflexivity|]. split; [|reflexivity].
    apply Forall_app. split; [exact Hquiet|repeat constructor].
  - unfold on_ask_rag. rewrite Hq. unfold emit, outcome, events. simpl.
    split; [reflexivity|]. split; [repeat constructor|discriminate].
Qed.

(** The same when building the client raises: the branch shows the error
    and the same message. *)
Lemma rag_skips_chat_on_failure ext inp t cls msg :
  str_truthy (query inp) = true ->
  outcome (client_and_chunks ext inp t) = Raise (Exception cls msg) ->
  on_ask_rag ext inp t
  = (Return tt, t,
     events (client_and_chunks ext inp t)
     ++ [Ui StError ("Search failed: " ++ msg);
         Ui StInfo "No chunks found. Cannot generate an answer."]).
Proof.
  intros Hq Hret.
  destruct (client_and_chunks_run ext inp t) as (ev1 & E & _).
  rewrite Hret in E.
  unfold on_ask_rag. rewrite Hq. cbn [negb].
  unfold bind at 1, attempt at 1. rewrite E. reflexivity.
Qed.

Lemma rag_skips_chat_on_empty_retrieval_witness :
  outcome (client_and_chunks demo_ext demo_inputs_empty demo_tables)
  = Return (demo_session, [])
  /\ outcome (on_ask_rag demo_ext demo_inputs_empty demo_tables) = Return tt
  /\ Forall (fun ev => is_chat_call ev = false)
            (events (on_ask_rag demo_ext demo_inputs_empty demo_tables)).
Proof.
  split; [reflexivity|].
  pose (H := rag_skips_chat_on_empty_retrieval demo_ext demo_inputs_empty demo_tables
               demo_session eq_refl).
  exact (conj (proj1 H) (proj1 (proj2 H))).
Defined.

(** C10. On an empty list of texts [get_embeddings] returns the empty
    list at once: no call to the hosted service, no event, no exception. *)
Theorem get_embeddings_empty_texts ext client comp model_id t :
  get_embeddings ext client comp [] model_id t = (Return (Some []), t, []).
Proof. reflexivity. Qed.

(** ** The scenarios of the specification *)

Example guide_pdf_top_2 :
  outcome (search_chunks_by_doc demo_ext demo_client None
             "guide.pdf" "what is X" 2 demo_tables) = Return demo_hits.
Proof. reflexivity. Qed.

Example empty_pdf_no_hits :
  outcome (search_chunks_by_doc demo_ext demo_client None
             "empty.pdf" "what is X" 2 demo_tables) = Return [].
Proof. reflexivity. Qed.

Example empty_pdf_events :
  events (on_ask_rag demo_ext demo_inputs_empty demo_tables)
  = events (client_and_chunks demo_ext demo_inputs_empty demo_tables)
    ++ [Ui StInfo "No chunks found. Cannot generate an answer."].
Proof. reflexivity. Qed.

(** * Further properties of the code *)

(** ** The events of the adapters *)

Lemma execute_query_log_or_query ext R (s : Statement R) fetch_one fetch_all t :
  stmt_kind s = Query ->
  Forall (fun ev => log_or_query ev = true)
         (events (execute_query ext s fetch_one fetch_all false t)).
Proof.
  intros Hk. unfold execute_query.
  destruct (acquire_fault ext (stmt_text s)); [constructor|].
  run_step. rewrite Hk.
  destruct (cursor_execute ext s t) as [[rs t']|e]; simpl.
  - destruct fetch_one; simpl.
    + destruct (fetchone rs); simpl; events_ok.
    + destruct fetch_all; simpl.
      * destruct (fetchall rs); simpl; events_ok.
      * events_ok.
  - events_ok.
Qed.

Lemma attempt_events {A : Type} (m : M A) t :
  events (attempt m t) = events (m t).
Proof. unfold attempt, events. destruct (m t) as [[r t1] ev]. reflexivity. Qed.

Lemma bind_events_Forall {A B : Type} (P : Event -> Prop) (m : M A) (k : A -> M B) t :
  Forall P (events (m t)) ->
  (forall a t1, Forall P (events (k a t1))) ->
  Forall P (events (bind m k t)).
Proof.
  intros Hm Hk. unfold bind, events in *.
  destruct (m t) as [[[a|e] t1] ev1]; simpl in *; [|exact Hm].
  specialize (Hk a t1). destruct (k a t1) as [[r t2] ev2]. simpl in *.
  apply Forall_app. split; assumption.
Qed.

Lemma log_chunk_count_events ext doc_name t :
  Forall (fun ev => log_or_query ev = true) (events (log_chunk_count ext doc_name t)).
Proof.
  unfold log_chunk_count.
  apply bind_events_Forall.
  - rewrite attempt_events. apply bind_events_Forall.
    + apply execute_query_log_or_query. reflexivity.
    + intros a t1. run_step. events_ok.
  - intros [u|e] t1; run_step; events_ok.
Qed.

Lemma vector_search_events ext embedding_str doc_name top_k t :
  Forall (fun ev => log_or_query ev = true)
         (events (vector_search ext embedding_str doc_name top_k t)).
Proof.
  unfold vector_search.
  apply bind_events_Forall.
  - rewrite attempt_events. apply bind_events_Forall.
    + apply execute_query_log_or_query. reflexivity.
    + intros fetched t1. apply bind_events_Forall; [run_step; events_ok|].
      intros _ t2. destruct fetched as [[row|]|[|r rows]|]; run_step;
        try (destruct (r3 r); simpl); events_ok.
  - intros [res|e] t1; run_step; events_ok.
Qed.

Lemma get_embeddings_run_nonempty ext client comp x texts model_id t :
  get_embeddings ext client comp (x :: texts) model_id t
  = match embed_text ext client (embed_request ext comp (x :: texts) model_id) with
    | Raise e =>
        (Raise e, t,
         [EmbedTextCall (x :: texts); Log ERROR "OCI embed_text failed: %s"])
    | Return response =>
        match probe_embeddings response with
        | Some v => (Return v, t, [EmbedTextCall (x :: texts)])
        | None =>
            (Return (Some []), t,
             [EmbedTextCall (x :: texts);
              Log WARNING "Unexpected embed response shape: %s"])
        end
    end.
Proof.
  unfold get_embeddings, embed_request, embed_model_id. run_step.
  destruct (embed_text ext client _) as [response|e]; simpl; [|reflexivity].
  destruct (probe_embeddings response); reflexivity.
Qed.

Lemma get_embeddings_calls ext client comp x texts model_id t :
  filter is_embed_call (events (get_embeddings ext client comp (x :: texts) model_id t))
  = [EmbedTextCall (x :: texts)]
  /\ Forall (fun ev => log_or_embed ev = true)
            (events (get_embeddings ext client comp (x :: texts) model_id t)).
Proof.
  rewrite get_embeddings_run_nonempty.
  destruct (embed_text ext client _) as [response|e].
  - destruct (probe_embeddings response); split; try reflexivity;
      unfold events; simpl; events_ok.
  - split; [reflexivity|]. unfold events; simpl; events_ok.
Qed.

(** X1. For a non-empty list of texts the first thing [get_embeddings]
    does is one call of the hosted service with all the texts in order;
    whatever the outcome, only log records follow and the tables are left
    alone.  A failure of the call is not swallowed: the same exception
    reaches the caller. *)
Theorem get_embeddings_one_call ext client comp x texts model_id t :
  exists logs,
    events (get_embeddings ext client comp (x :: texts) model_id t)
    = EmbedTextCall (x :: texts) :: logs
    /\ Forall (fun ev => is_log ev = true) logs
    /\ tables_after (get_embeddings ext client comp (x :: texts) model_id t) = t
    /\ forall e,
         embed_text ext client (embed_request ext comp (x :: texts) model_id) = Raise e ->
         outcome (get_embeddings ext client comp (x :: texts) model_id t) = Raise e.
Proof.
  rewrite get_embeddings_run_nonempty.
  destruct (embed_text ext client _) as [response|e].
  - destruct (probe_embeddings response); eexists;
      (split; [reflexivity|split; [events_ok|split; [reflexivity|discriminate]]]).
  - eexists. split; [reflexivity|]. split; [events_ok|]. split; [reflexivity|].
    intros e' H. inversion H. reflexivity.
Qed.

(** ** Retrieval: what it sends and how much it returns *)

Lemma Forall_bool_impl (p q : Event -> bool) l :
  (forall ev, p ev = true -> q ev = false) ->
  Forall (fun ev => p ev = true) l -> Forall (fun ev => q ev = false) l.
Proof. intros H HF. eapply Forall_impl; [|exact HF]. exact H. Qed.

Lemma log_or_query_no_embed ev : log_or_query ev = true -> is_embed_call ev = false.
Proof. destruct ev; simpl; congruence. Qed.

Lemma log_or_embed_no_db ev : log_or_embed ev = true -> is_db_call ev = false.
Proof. destruct ev; simpl; congruence. Qed.

Lemma search_events ext client comp doc_name query top_k t :
  exists rest,
    events (search_chunks_by_doc ext client comp doc_name query top_k t)
    = Log INFO "search_chunks_by_doc: doc_name=%r, query=%r, top_k=%s"
      :: events (get_embeddings ext client comp [query] None t) ++ rest
    /\ Forall (fun ev => log_or_query ev = true) rest
    /\ ((forall v, outcome (get_embeddings ext client comp [query] None t)
                   <> Return (Some [v])) ->
        Forall (fun ev => is_db_call ev = false) rest).
Proof.
  unfold search_chunks_by_doc.
  pose proof (get_embeddings_frame ext client comp [query] None t) as Hf.
  destruct (get_embeddings ext client comp [query] None t) as [[r t1] ev1] eqn:E.
  unfold tables_after, outcome in *. simpl in Hf. subst t1.
  unfold bind at 1. unfold logger at 1, emit at 1.
  unfold bind at 1, attempt at 1. rewrite E. simpl fst. simpl snd.
  destruct r as [[[|v [|v' vs]]|]|e].
  - run_step. eexists. split; [reflexivity|]. split; [events_ok|]. intros _. events_ok.
  - destruct (log_chunk_count_run ext doc_name t) as (ev2 & E2 & _).
    destruct (vector_search_run ext (embedding_str ext v) doc_name top_k t)
      as (ev3 & E3 & _).
    pose proof (log_chunk_count_events ext doc_name t) as H2.
    pose proof (vector_search_events ext (embedding_str ext v) doc_name top_k t) as H3.
    rewrite E2 in H2. rewrite E3 in H3. unfold events in H2, H3. simpl in H2, H3.
    unfold bind, logger, emit. rewrite E2, E3. unfold events. simpl.
    eexists. split; [reflexivity|]. split; [events_ok|].
    intros Hne. exfalso. apply (Hne v). reflexivity.
  - run_step. eexists. split; [reflexivity|]. split; [events_ok|]. intros _. events_ok.
  - run_step. eexists. split; [reflexivity|]. split; [events_ok|]. intros _. events_ok.
  - run_step. eexists. split; [reflexivity|]. split; [events_ok|]. intros _. events_ok.
Qed.

(** X2. Whatever happens, [search_chunks_by_doc] calls the embedding
    service exactly once, with the query as the only text. *)
Theorem search_one_embedding_call ext client comp doc_name query top_k t :
  filter is_embed_call
         (events (search_chunks_by_doc ext client comp doc_name query top_k t))
  = [EmbedTextCall [query]].
Proof.
  destruct (search_events ext client comp doc_name query top_k t)
    as (rest & E & Hrest & _).
  rewrite E. cbn [filter is_embed_call]. rewrite filter_app.
  rewrite (proj1 (get_embeddings_calls ext client comp query [] None t)).
  rewrite (filter_none is_embed_call rest); [reflexivity|].
  eapply Forall_bool_impl; [|exact Hrest]. exact log_or_query_no_embed.
Qed.

(** X3. When the embedding adapter raises or hands back anything but one
    vector, [search_chunks_by_doc] sends nothing to the database: neither
    the count nor the vector search is executed. *)
Theorem search_skips_database_without_embedding ext client comp doc_name query top_k t :
  (forall v, outcome (get_embeddings ext client comp [query] None t)
             <> Return (Some [v])) ->
  Forall (fun ev => is_db_call ev = false)
         (events (search_chunks_by_doc ext client comp doc_name query top_k t)).
Proof.
  intros Hne.
  destruct (search_events ext client comp doc_name query top_k t)
    as (rest & E & _ & Hrest).
  rewrite E. constructor; [reflexivity|].
  apply Forall_app. split; [|exact (Hrest Hne)].
  eapply Forall_bool_impl;
    [|exact (proj2 (get_embeddings_calls ext client comp query [] None t))].
  exact log_or_embed_no_db.
Qed.

Lemma search_skips_database_without_embedding_witness :
  Forall (fun ev => is_db_call ev = false)
         (events (search_chunks_by_doc (demo_external demo_embed_two no_fault)
                    demo_client None "guide.pdf" "what is X" 2 demo_tables)).
Proof.
  apply (search_skips_database_without_embedding
           (demo_external demo_embed_two no_fault) demo_client None
           "guide.pdf" "what is X" 2 demo_tables).
  intros v. simpl. discriminate.
Defined.

(** X4. [search_chunks_by_doc] never returns more than [top_k] results
    (none for a [top_k] below 1). *)
Theorem search_at_most_top_k ext client comp doc_name query top_k t result :
  outcome (search_chunks_by_doc ext client comp doc_name query top_k t) = Return result ->
  (List.length result <= Z.to_nat top_k)%nat.
Proof.
  intros Hres.
  destruct (search_run ext client comp doc_name query top_k t) as (evs & E & _).
  rewrite E in Hres. unfold outcome in Hres. simpl in Hres.
  inversion Hres; subst result. clear Hres.
  destruct (search_result_rows ext client comp doc_name query top_k t)
    as [Hnil | (vq & rows & _ & Hrows & Hres)].
  - rewrite Hnil. simpl. lia.
  - rewrite Hres, length_map, (search_rows_length _ _ _ _ _ _ Hrows). lia.
Qed.

Lemma search_at_most_top_k_witness :
  (List.length demo_hits <= Z.to_nat 2)%nat.
Proof.
  exact (search_at_most_top_k demo_ext demo_client None "guide.pdf" "what is X" 2
           demo_tables demo_hits eq_refl).
Defined.

Lemma log_chunk_count_warns ext doc_name t e :
  outcome (execute_query ext (count_statement doc_name) true true false t) = Raise e ->
  In (Log WARNING "search_chunks_by_doc: count check failed: %s")
     (events (log_chunk_count ext doc_name t)).
Proof.
  intros H. unfold log_chunk_count, bind, attempt.
  destruct (execute_query ext (count_statement doc_name) true true false t)
    as [[r t1] ev] eqn:E.
  unfold outcome in H. simpl in H. subst r.
  unfold events, logger, emit. simpl.
  apply in_or_app. right. left. reflexivity.
Qed.

(** X5. The count of embedded chunks is for the log only: when that query
    raises, [search_chunks_by_doc] records a warning and still returns the
    rows of the vector search. *)
Theorem search_tolerates_count_failure ext client comp doc_name query top_k t v rows e :
  outcome (get_embeddings ext client comp [query] None t) = Return (Some [v]) ->
  outcome (execute_query ext (count_statement doc_name) true true false t) = Raise e ->
  outcome (execute_query ext
             (search_statement ext (embedding_str ext v) doc_name top_k)
             false true false t) = Return (FetchedAll rows) ->
  outcome (search_chunks_by_doc ext client comp doc_name query top_k t)
  = Return (map result_of_row rows)
  /\ In (Log WARNING "search_chunks_by_doc: count check failed: %s")
        (events (search_chunks_by_doc ext client comp doc_name query top_k t)).
Proof.
  intros Hv Hcount Hsearch. split.
  - destruct (search_run ext client comp doc_name query top_k t) as (evs & E & _).
    rewrite E. unfold outcome at 1. simpl. f_equal.
    unfold search_result. rewrite Hv, Hsearch. reflexivity.
  - pose proof (log_chunk_count_warns ext doc_name t e Hcount) as Hw.
    unfold search_chunks_by_doc.
    pose proof (get_embeddings_frame ext client comp [query] None t) as Hf.
    destruct (get_embeddings ext client comp [query] None t) as [[r t1] ev1] eqn:E.
    unfold tables_after, outcome in Hf, Hv. simpl in Hf, Hv. subst t1 r.
    unfold bind at 1. unfold logger at 1, emit at 1.
    unfold bind at 1, attempt at 1. rewrite E. simpl fst. simpl snd.
    destruct (log_chunk_count_run ext doc_name t) as (ev2 & E2 & _).
    destruct (vector_search_run ext (embedding_str ext v) doc_name top_k t)
      as (ev3 & E3 & _).
    rewrite E2 in Hw. unfold events in Hw. simpl in Hw.
    unfold bind, logger, emit. rewrite E2, E3. unfold events. simpl.
    right. apply in_or_app. right. right.
    apply in_or_app. left. exact Hw.
Qed.

Lemma search_tolerates_count_failure_witness :
  outcome (search_chunks_by_doc (demo_external demo_embed count_fault) demo_client None
             "guide.pdf" "what is X" 2 demo_tables)
  = Return demo_hits
  /\ In (Log WARNING "search_chunks_by_doc: count check failed: %s")
        (events (search_chunks_by_doc (demo_external demo_embed count_fault)
                   demo_client None "guide.pdf" "what is X" 2 demo_tables)).
Proof.
  exact (search_tolerates_count_failure (demo_external demo_embed count_fault)
           demo_client None "guide.pdf" "what is X" 2 demo_tables [1 # 2]
           [ mkSearchRow 1 2 (Some "beta"%string) (Some (12 # 100)) (Some "guide.pdf"%string);
             mkSearchRow 1 3 (Some "epsilon"%string) (Some (45 # 100))
                         (Some "guide.pdf"%string) ]
           (Exception "DatabaseError" "connection lost")
           eq_refl eq_refl eq_refl).
Defined.

Lemma no_embedded_chunks_no_rows t doc_name :
  available_embedded_chunks t doc_name = 0%nat ->
  filter (where_doc_embedded doc_name) (join_on_job_id t) = [].
Proof.
  intros Hzero.
  destruct (filter (where_doc_embedded doc_name) (join_on_job_id t))
    as [|[c j] l] eqn:E; [reflexivity|exfalso].
  assert (Hin : In (c, j) (filter (where_doc_embedded doc_name) (join_on_job_id t))).
  { rewrite E. left. reflexivity. }
  rewrite filter_In in Hin. destruct Hin as (Hjoin & Hw).
  apply in_join_on_job_id in Hjoin. destruct Hjoin as (Hc & Hj & Hid).
  unfold where_doc_embedded in Hw. simpl in Hw.
  apply andb_true_iff in Hw. destruct Hw as (Hname & Hvec).
  assert (Hc' : In c (filter (fun c => belongs_to t doc_name c
                                       && is_not_null (embed_vector c))
                             (doc_chunks t))).
  { rewrite filter_In. split; [exact Hc|].
    rewrite Hvec, andb_true_r. unfold belongs_to.
    apply existsb_exists. exists j. split; [exact Hj|].
    rewrite Hname, andb_true_r. apply Z.eqb_eq. exact Hid. }
  unfold available_embedded_chunks in Hzero.
  destruct (filter _ (doc_chunks t)); [destruct Hc'|discriminate].
Qed.

(** X6. For a document none of whose chunks carries a vector (or that has
    no chunk at all), [search_chunks_by_doc] returns the empty list,
    whatever the query and [top_k]. *)
Theorem search_empty_without_embedded_chunks ext client comp doc_name query top_k t :
  available_embedded_chunks t doc_name = 0%nat ->
  outcome (search_chunks_by_doc ext client comp doc_name query top_k t) = Return [].
Proof.
  intros Hzero.
  destruct (search_run ext client comp doc_name query top_k t) as (evs & E & _).
  rewrite E. unfold outcome at 1. simpl. f_equal.
  destruct (search_result_rows ext client comp doc_name query top_k t)
    as [Hnil | (vq & rows & _ & Hrows & Hres)]; [exact Hnil|].
  rewrite Hres. unfold search_rows in Hrows.
  rewrite (no_embedded_chunks_no_rows _ _ Hzero) in Hrows. simpl in Hrows.
  inversion Hrows. unfold fetch_first. rewrite firstn_nil. reflexivity.
Qed.

Lemma search_empty_without_embedded_chunks_witness :
  outcome (search_chunks_by_doc demo_ext demo_client None
             "empty.pdf" "what is X" 5 demo_tables) = Return [].
Proof.
  exact (search_empty_without_embedded_chunks demo_ext demo_client None
           "empty.pdf" "what is X" 5 demo_tables eq_refl).
Defined.

Lemma sorted_app_le {A : Type} (R : A -> A -> Prop) l1 l2 a b :
  StronglySorted R (l1 ++ l2) -> In a l1 -> In b l2 -> R a b.
Proof.
  induction l1 as [|x l1 IH]; simpl; [tauto|].
  intros Hs Ha Hb. apply StronglySorted_inv in Hs. destruct Hs as (Hs & Hx).
  destruct Ha as [Ha|Ha].
  - subst x. rewrite Forall_forall in Hx. apply Hx.
    apply in_or_app. right. exact Hb.
  - apply IH; assumption.
Qed.

(** X7. The results are the nearest chunks: an embedded chunk of the
    document either is among the results, or is at least as far from the
    query as every result. *)
Theorem search_returns_nearest ext client comp doc_name query top_k t vq result c j v :
  outcome (get_embeddings ext client comp [query] None t) = Return (Some [vq]) ->
  outcome (search_chunks_by_doc ext client comp doc_name query top_k t) = Return result ->
  result <> [] ->
  In c (doc_chunks t) -> In j (doc_ingest_jobs t) ->
  job_id j = c_job_id c -> object_name j = doc_name ->
  embed_vector c = Some v ->
  exists d,
    vector_distance ext v (embedding_str ext vq) = Return d
    /\ ((exists r, In r result
                   /\ qr_job_id r = c_job_id c /\ qr_chunk_id r = chunk_id c
                   /\ qr_similarity r = Some d)
        \/ (forall r, In r result ->
                      exists d', qr_similarity r = Some d' /\ (d' <= d)%Q)).
Proof.
  intros Hvq Hres Hne Hc Hj Hid Hname Hv.
  destruct (search_run ext client comp doc_name query top_k t) as (evs & E & _).
  rewrite E in Hres. unfold outcome in Hres. simpl in Hres.
  inversion Hres; subst result. clear Hres.
  destruct (search_result_rows ext client comp doc_name query top_k t)
    as [Hnil | (vq' & rows & Hvq' & Hrows & Hmap)]; [contradiction|].
  rewrite Hvq in Hvq'. inversion Hvq'; subst vq'. clear Hvq'.
  rewrite Hmap. clear Hne Hmap E.
  pose proof (search_rows_from _ _ _ _ _ _ Hrows) as Hfrom.
  unfold search_rows, fetch_first in Hrows.
  destruct (map_result _ _) as [sel|e] eqn:Esel; [|discriminate].
  inversion Hrows as [Hfirst]. clear Hrows.
  apply map_result_Forall2 in Esel.
  assert (Hin : In (c, j) (filter (where_doc_embedded doc_name) (join_on_job_id t))).
  { rewrite filter_In. split; [apply in_join_on_job_id_intro; assumption|].
    unfold where_doc_embedded. simpl. rewrite Hv, Hname, String.eqb_refl. reflexivity. }
  destruct (Forall2_left_in _ _ _ _ Esel Hin) as (row & Hrow & Hsel).
  unfold select_list in Hsel. rewrite Hv in Hsel.
  destruct (vector_distance ext v (embedding_str ext vq)) as [d|e] eqn:Ed; [|discriminate].
  inversion Hsel; subst row. clear Hsel.
  exists d. split; [reflexivity|].
  pose proof (order_by_similarity_sorted sel) as Hsorted.
  apply (Permutation_in _ (Permutation_sym (order_by_similarity_perm sel))) in Hrow.
  rewrite <- (firstn_skipn (Z.to_nat top_k) (order_by_similarity sel)) in Hrow, Hsorted.
  rewrite Hfirst in Hrow, Hsorted. rewrite ?Hfirst.
  apply in_app_or in Hrow. destruct Hrow as [Hrow|Hrow].
  - left. eexists. split; [apply in_map; exact Hrow|].
    simpl. auto.
  - right. intros r Hr. apply in_map_iff in Hr. destruct Hr as (row & Hr & Hrin).
    subst r.
    pose proof (sorted_app_le _ _ _ _ _ Hsorted Hrin Hrow) as Hle.
    rewrite Forall_forall in Hfrom.
    destruct (Hfrom row Hrin) as (c' & j' & v' & d' & _ & _ & _ & _ & _ & _ & Heq).
    subst row. exists d'. split; [reflexivity|].
    unfold row_le in Hle. simpl in Hle. apply Qle_bool_iff. exact Hle.
Qed.

Lemma search_returns_nearest_witness :
  exists d,
    vector_distance demo_ext [88 # 100] (embedding_str demo_ext [1 # 2]) = Return d
    /\ ((exists r, In r demo_hits
                   /\ qr_job_id r = 1%Z /\ qr_chunk_id r = 1%Z
                   /\ qr_similarity r = Some d)
        \/ (forall r, In r demo_hits ->
                      exists d', qr_similarity r = Some d' /\ (d' <= d)%Q)).
Proof.
  refine (search_returns_nearest demo_ext demo_client None "guide.pdf" "what is X" 2
            demo_tables [1 # 2] demo_hits
            (mkChunk 1 1 (Some "alpha"%string) (Some [88 # 100]))
            (mkJob 1 "guide.pdf" "DONE") [88 # 100] eq_refl eq_refl _ _ _ eq_refl eq_refl
            eq_refl).
  - discriminate.
  - simpl. auto.
  - simpl. auto.
Defined.

(** ** The list of documents *)

Lemma get_distinct_document_names_run ext t :
  exists evs,
    get_distinct_document_names ext t
    = (Return (match acquire_fault ext distinct_names_sql with
               | Some _ => []
               | None =>
                   match execute_fault ext distinct_names_sql with
                   | Some _ => []
                   | None => listed_names t
                   end
               end), t, evs)
    /\ Forall (fun ev => log_or_query ev = true) evs.
Proof.
  unfold get_distinct_document_names, execute_query, cursor_execute, listed_names,
    distinct_names_rows.
  cbn [stmt_text stmt_kind stmt_params].
  destruct (acquire_fault ext distinct_names_sql).
  - run_step. eexists. split; [reflexivity|events_ok].
  - run_step. destruct (execute_fault ext distinct_names_sql); simpl.
    + eexists. split; [reflexivity|events_ok].
    + eexists. split; [reflexivity|events_ok].
Qed.

(** X8. [get_distinct_document_names] never raises and leaves the tables
    alone; when the driver fails on its query it returns the empty list. *)
Theorem get_distinct_document_names_never_raises ext t :
  exists names,
    outcome (get_distinct_document_names ext t) = Return names
    /\ tables_after (get_distinct_document_names ext t) = t
    /\ (~ names_query_ok ext -> names = []).
Proof.
  destruct (get_distinct_document_names_run ext t) as (evs & E & _).
  rewrite E. eexists. split; [reflexivity|]. split; [reflexivity|].
  unfold names_query_ok. intros Hbad.
  destruct (acquire_fault ext distinct_names_sql); [reflexivity|].
  destruct (execute_fault ext distinct_names_sql); [reflexivity|].
  exfalso. apply Hbad. split; reflexivity.
Qed.

Lemma insert_name_perm s l : Permutation (insert_name s l) (s :: l).
Proof.
  induction l as [|x l IH]; simpl; [apply Permutation_refl|].
  destruct (String.leb s x); [apply Permutation_refl|].
  eapply Permutation_trans; [apply perm_skip; exact IH|apply perm_swap].
Qed.

Lemma sort_names_perm l : Permutation (fold_right insert_name [] l) l.
Proof.
  induction l as [|s l IH]; simpl; [constructor|].
  eapply Permutation_trans; [apply insert_name_perm|]. apply perm_skip. exact IH.
Qed.

Lemma insert_name_sorted s l : Sorted name_le l -> Sorted name_le (insert_name s l).
Proof.
  induction 1 as [|x l Hs IH Hhd]; simpl.
  - repeat constructor.
  - destruct (String.leb s x) eqn:E.
    + repeat constructor; assumption.
    + constructor; [exact IH|].
      assert (Hxs : name_le x s).
      { destruct (String.leb_total s x) as [H|H]; [congruence|exact H]. }
      destruct l as [|y l]; simpl.
      * constructor. exact Hxs.
      * destruct (String.leb s y); constructor; [exact Hxs|].
        inversion Hhd. assumption.
Qed.

Lemma sort_names_sorted l : Sorted name_le (fold_right insert_name [] l).
Proof.
  induction l as [|s l IH]; simpl; [constructor|].
  apply insert_name_sorted. exact IH.
Qed.

Lemma listed_names_in t n :
  In n (listed_names t)
  <-> exists j, In j (doc_ingest_jobs t) /\ object_name j = n /\ has_chunk t j.
Proof.
  unfold listed_names, distinct_names_rows.
  split.
  - intros Hin.
    apply (Permutation_in _ (sort_names_perm _)) in Hin.
    rewrite nodup_In, in_map_iff in Hin.
    destruct Hin as (j & Hname & Hj). rewrite filter_In in Hj.
    destruct Hj as (Hj & Hex). apply existsb_exists in Hex.
    destruct Hex as (c & Hc & Hid). apply Z.eqb_eq in Hid.
    exists j. split; [exact Hj|]. split; [exact Hname|]. exists c. auto.
  - intros (j & Hj & Hname & c & Hc & Hid).
    apply (Permutation_in _ (Permutation_sym (sort_names_perm _))).
    rewrite nodup_In, in_map_iff. exists j. split; [exact Hname|].
    rewrite filter_In. split; [exact Hj|].
    apply existsb_exists. exists c. split; [exact Hc|]. apply Z.eqb_eq. exact Hid.
Qed.

(** X9. When its query runs, [get_distinct_document_names] lists exactly
    the names of the jobs that have at least one chunk, each name once, in
    ascending order. *)
Theorem get_distinct_document_names_lists_documents ext t :
  names_query_ok ext ->
  exists names,
    outcome (get_distinct_document_names ext t) = Return names
    /\ NoDup names
    /\ Sorted name_le names
    /\ forall n,
         In n names
         <-> exists j, In j (doc_ingest_jobs t) /\ object_name j = n /\ has_chunk t j.
Proof.
  intros (Ha & He).
  destruct (get_distinct_document_names_run ext t) as (evs & E & _).
  rewrite E, Ha, He. exists (listed_names t).
  split; [reflexivity|]. split; [|split].
  - unfold listed_names, distinct_names_rows.
    eapply Permutation_NoDup; [apply Permutation_sym, sort_names_perm|].
    apply NoDup_nodup.
  - unfold listed_names, distinct_names_rows. apply sort_names_sorted.
  - apply listed_names_in.
Qed.

Lemma get_distinct_document_names_lists_documents_witness :
  exists names,
    outcome (get_distinct_document_names demo_ext demo_tables) = Return names
    /\ NoDup names
    /\ Sorted name_le names
    /\ forall n,
         In n names
         <-> exists j, In j (doc_ingest_jobs demo_tables) /\ object_name j = n
                       /\ has_chunk demo_tables j.
Proof.
  apply (get_distinct_document_names_lists_documents demo_ext demo_tables).
  split; reflexivity.
Defined.

Lemma search_result_without_rows ext client comp doc_name query top_k t :
  filter (where_doc_embedded doc_name) (join_on_job_id t) = [] ->
  search_result ext client comp doc_name query top_k t = [].
Proof.
  intros Hnone.
  destruct (search_result_rows ext client comp doc_name query top_k t)
    as [Hnil | (vq & rows & _ & Hrows & Hres)]; [exact Hnil|].
  rewrite Hres. unfold search_rows in Hrows. rewrite Hnone in Hrows.
  simpl in Hrows. inversion Hrows. unfold fetch_first. rewrite firstn_nil. reflexivity.
Qed.

(** X10. A document that [get_distinct_document_names] does not list has
    nothing to retrieve: [search_chunks_by_doc] returns the empty list for
    it. *)
Theorem search_empty_for_unlisted_document ext client comp doc_name query top_k t names :
  names_query_ok ext ->
  outcome (get_distinct_document_names ext t) = Return names ->
  ~ In doc_name names ->
  outcome (search_chunks_by_doc ext client comp doc_name query top_k t) = Return [].
Proof.
  intros (Ha & He) Hnames Hnot.
  destruct (get_distinct_document_names_run ext t) as (evs & E & _).
  rewrite E, Ha, He in Hnames. unfold outcome in Hnames. simpl in Hnames.
  inversion Hnames; subst names. clear Hnames.
  destruct (search_run ext client comp doc_name query top_k t) as (evs' & E' & _).
  rewrite E'. unfold outcome. simpl. f_equal.
  apply search_result_without_rows.
  destruct (filter (where_doc_embedded doc_name) (join_on_job_id t))
    as [|[c j] l] eqn:Ef; [reflexivity|exfalso].
  assert (Hin : In (c, j) (filter (where_doc_embedded doc_name) (join_on_job_id t))).
  { rewrite Ef. left. reflexivity. }
  rewrite filter_In in Hin. destruct Hin as (Hjoin & Hw).
  apply in_join_on_job_id in Hjoin. destruct Hjoin as (Hc & Hj & Hid).
  unfold where_doc_embedded in Hw. simpl in Hw.
  apply andb_true_iff in Hw. destruct Hw as (Hname & _).
  apply String.eqb_eq in Hname.
  apply Hnot. apply listed_names_in. exists j.
  split; [exact Hj|]. split; [exact Hname|]. exists c. auto.
Qed.

Lemma search_empty_for_unlisted_document_witness :
  outcome (search_chunks_by_doc demo_ext demo_client None
             "missing.pdf" "what is X" 2 demo_tables) = Return [].
Proof.
  refine (search_empty_for_unlisted_document demo_ext demo_client None
            "missing.pdf" "what is X" 2 demo_tables
            ["empty.pdf"; "guide.pdf"; "other.pdf"]%string _ eq_refl _).
  - split; reflexivity.
  - simpl. intros [H|[H|[H|[]]]]; discriminate.
Defined.

(** ** The Knowledge Bot tab *)

Lemma search_result_similarity ext client comp doc_name query top_k t :
  Forall (fun r => exists d, qr_similarity r = Some d)
         (search_result ext client comp doc_name query top_k t).
Proof.
  destruct (search_result_rows ext client comp doc_name query top_k t)
    as [Hnil | (vq & rows & _ & Hrows & Hres)].
  - rewrite Hnil. constructor.
  - rewrite Hres. apply Forall_map.
    eapply Forall_impl; [|exact (search_rows_from _ _ _ _ _ _ Hrows)].
    intros r (c & j & v & d & _ & _ & _ & _ & _ & _ & Hr). subst r.
    exists d. reflexivity.
Qed.

Lemma client_and_chunks_similarity ext inp t s chunks :
  outcome (client_and_chunks ext inp t) = Return (s, chunks) ->
  Forall (fun r => exists d, qr_similarity r = Some d) chunks.
Proof.
  unfold client_and_chunks, get_oci_client.
  destruct (session_state inp) as [s0|].
  - destruct (search_run ext (oci_client s0) (session_compartment_id s0)
                (selected_doc inp) (query inp) (top_k inp) t) as (evs & E & _).
    unfold bind, ret, outcome. simpl. rewrite E. simpl.
    intros H. inversion H; subst. apply search_result_similarity.
  - unfold init_client.
    destruct (oci_config_from_file ext) as [config|e]; run_step; [|discriminate].
    destruct (new_inference_client ext _) as [client|e]; simpl; [|discriminate].
    match goal with
    | |- context [search_chunks_by_doc ext ?c ?comp ?d ?q ?k t] =>
        destruct (search_run ext c comp d q k t) as (evs & E & _)
    end.
    rewrite E. simpl.
    intros H. inversion H; subst. apply search_result_similarity.
Qed.

Lemma show_chunks_run start (code : QueryResult -> string) chunks t :
  Forall (fun r => exists d, qr_similarity r = Some d) chunks ->
  for_enumerate start chunks (fun i c => show_chunk i c (code c)) t
  = (Return tt, t, chunk_widgets start code chunks).
Proof.
  intros H. revert start. induction H as [|c chunks (d & Hd) _ IH]; intros start.
  - reflexivity.
  - simpl. unfold bind, show_chunk. rewrite Hd. unfold emit. rewrite IH. reflexivity.
Qed.

Lemma show_answer_run answer chunks t :
  Forall (fun r => exists d, qr_similarity r = Some d) chunks ->
  show_answer answer chunks t
  = (Return tt, t,
     match answer with
     | Some (String _ _ as text) =>
         [Ui StSubheader "Answer"; Ui StWrite text; Ui StDivider EmptyString;
          Ui StSubheader "📄 Source Chunks"]
         ++ chunk_widgets 1 (fun c => preview (qr_chunk_text c)) chunks
     | _ => [Ui StError "Failed to get answer from LLM."]
     end).
Proof.
  intros H. unfold show_answer.
  destruct answer as [[|a text]|]; try reflexivity.
  unfold bind, emit.
  rewrite (show_chunks_run 1 (fun c => preview (qr_chunk_text c)) chunks t H).
  reflexivity.
Qed.

Lemma chunk_widgets_ui start code chunks :
  Forall (fun ev => is_ui ev = true) (chunk_widgets start code chunks).
Proof.
  revert start. induction chunks as [|c chunks IH]; intros start; simpl;
    constructor; [reflexivity|apply IH].
Qed.

(** The events of the search branch, from what the retrieval returns. *)
Lemma on_search_only_run ext inp t :
  on_search_only ext inp t
  = (Return tt, t,
     if str_truthy (query inp) then
       events (client_and_chunks ext inp t)
       ++ match outcome (client_and_chunks ext inp t) with
          | Raise (Exception _ msg) =>
              [Ui StError ("Search failed: " ++ msg);
               Ui StInfo "No chunks found for this document/query."]
          | Return (_, []) => [Ui StInfo "No chunks found for this document/query."]
          | Return (_, (_ :: _) as chunks) =>
              Ui StSubheader ("📄 Top " ++ str_of_nat (List.length chunks)
                              ++ " Similar Chunks")
              :: chunk_widgets 1 qr_chunk_text chunks
          end
     else [Ui StWarning "Enter a question first."]).
Proof.
  unfold on_search_only.
  destruct (str_truthy (query inp)); cbn [negb]; [|reflexivity].
  destruct (client_and_chunks_run ext inp t) as (ev1 & E & _).
  pose proof (client_and_chunks_similarity ext inp t) as Hsim.
  unfold bind at 1, attempt at 1. rewrite E.
  unfold events at 1. cbn [fst snd].
  destruct (outcome (client_and_chunks ext inp t)) as [[s chunks]|[cls msg]].
  - specialize (Hsim s chunks eq_refl).
    destruct chunks as [|c chunks]; [run_step; reflexivity|].
    unfold bind, ret, emit. cbn [fst snd].
    rewrite (show_chunks_run 1 qr_chunk_text (c :: chunks) t Hsim).
    reflexivity.
  - run_step. reflexivity.
Qed.

(** The events of the RAG branch, from what the retrieval and the chat
    adapter return. *)
Lemma on_ask_rag_run ext inp t :
  exists chat_events,
    on_ask_rag ext inp t
    = (Return tt, t,
       if str_truthy (query inp) then
         events (client_and_chunks ext inp t)
         ++ match outcome (client_and_chunks ext inp t) with
            | Raise (Exception _ msg) =>
                [Ui StError ("Search failed: " ++ msg);
                 Ui StInfo "No chunks found. Cannot generate an answer."]
            | Return (_, []) => [Ui StInfo "No chunks found. Cannot generate an answer."]
            | Return (s, (_ :: _) as chunks) =>
                chat_events
                ++ match expected_answer ext (oci_config s) (session_compartment_id s)
                           (rag_context chunks) (query inp)
                           DEFAULT_CHAT_MODEL 1024 (3 # 10) with
                   | Some (String _ _ as text) =>
                       [Ui StSubheader "Answer"; Ui StWrite text;
                        Ui StDivider EmptyString; Ui StSubheader "📄 Source Chunks"]
                       ++ chunk_widgets 1 (fun c => preview (qr_chunk_text c)) chunks
                   | _ => [Ui StError "Failed to get answer from LLM."]
                   end
            end
       else [Ui StWarning "Enter a question first."])
    /\ Forall (fun ev => log_or_chat ev = true) chat_events.
Proof.
  unfold on_ask_rag.
  destruct (str_truthy (query inp)); cbn [negb];
    [|exists []; split; [reflexivity|constructor]].
  destruct (client_and_chunks_run ext inp t) as (ev1 & E & _).
  pose proof (client_and_chunks_similarity ext inp t) as Hsim.
  unfold bind at 1, attempt at 1. rewrite E.
  unfold events at 1. cbn [fst snd].
  destruct (outcome (client_and_chunks ext inp t)) as [[s chunks]|[cls msg]].
  - specialize (Hsim s chunks eq_refl).
    destruct chunks as [|c chunks].
    { exists []. split; [reflexivity|constructor]. }
    cbv iota beta.
    destruct (chat_with_context_run ext (oci_config s) (session_compartment_id s)
                (rag_context (c :: chunks)) (query inp) DEFAULT_CHAT_MODEL 1024 (3 # 10) t)
      as (evc & Ec).
    exists evc. split.
    + unfold bind. rewrite Ec. rewrite (show_answer_run _ _ _ Hsim). reflexivity.
    + assert (H : events (chat_with_context ext (oci_config s) (session_compartment_id s)
                            (rag_context (c :: chunks)) (query inp)
                            DEFAULT_CHAT_MODEL 1024 (3 # 10) t) = evc)
        by (rewrite Ec; reflexivity).
      rewrite <- H. clear.
      unfold chat_with_context. run_step.
      destruct (new_inference_client ext _) as [client|e]; simpl; [|events_ok].
      destruct (chat ext client _) as [response|e]; simpl; [|events_ok].
      destruct (probe_chat response); simpl; events_ok.
  - exists []. split; [reflexivity|constructor].
Qed.

Lemma render_knowledge_bot_tab_run ext inp t :
  exists names,
    outcome (get_distinct_document_names ext t) = Return names
    /\ render_knowledge_bot_tab ext inp t
       = (Return tt, t,
          events (get_distinct_document_names ext t)
          ++ match names with
             | [] =>
                 [Ui StWarning
                     "No documents with chunks found. Run the ingest pipeline first."]
             | _ :: _ =>
                 (if search_only inp then events (on_search_only ext inp t) else [])
                 ++ (if ask_rag inp then events (on_ask_rag ext inp t) else [])
             end).
Proof.
  destruct (get_distinct_document_names_run ext t) as (evn & En & _).
  eexists. split; [rewrite En; reflexivity|].
  unfold render_knowledge_bot_tab.
  unfold bind at 1, attempt at 1. rewrite En. unfold events at 1. cbn [fst snd].
  destruct (match acquire_fault ext distinct_names_sql with
            | Some _ => []
            | None => _
            end) as [|n names]; [reflexivity|].
  cbv iota beta.
  destruct (on_ask_rag_run ext inp t) as (evc & Er & _).
  destruct (search_only inp), (ask_rag inp); unfold bind, ret;
    rewrite ?on_search_only_run; cbv iota beta; rewrite ?Er;
    unfold events; cbn [fst snd]; rewrite ?app_nil_r; reflexivity.
Qed.

Lemma ui_fetch_only ev : is_ui ev = true -> fetch_only ev.
Proof. destruct ev; simpl; intros; congruence || trivial. Qed.

Lemma log_or_chat_fetch_only ev : log_or_chat ev = true -> fetch_only ev.
Proof. destruct ev; simpl; intros; congruence || trivial. Qed.

Lemma log_or_query_fetch_only ev : log_or_query ev = true -> fetch_only ev.
Proof. destruct ev as [| | |[|] | | |]; simpl; intros; congruence || trivial. Qed.

Lemma client_and_chunks_fetch_only ext inp t :
  Forall fetch_only (events (client_and_chunks ext inp t)).
Proof.
  destruct (client_and_chunks_run ext inp t) as (ev1 & E & He).
  rewrite E. unfold events. simpl.
  eapply Forall_impl; [|exact He]. exact retrieval_event_fetch_only.
Qed.

Lemma chunk_widgets_fetch_only start code chunks :
  Forall fetch_only (chunk_widgets start code chunks).
Proof.
  eapply Forall_impl; [|apply chunk_widgets_ui]. exact ui_fetch_only.
Qed.

Lemma on_search_only_fetch_only ext inp t :
  Forall fetch_only (events (on_search_only ext inp t)).
Proof.
  rewrite on_search_only_run. unfold events at 1. cbn [snd].
  destruct (str_truthy (query inp)); [|repeat constructor].
  apply Forall_app. split; [apply client_and_chunks_fetch_only|].
  destruct (outcome (client_and_chunks ext inp t)) as [[s [|c chunks]]|[cls msg]];
    try (repeat constructor).
  apply chunk_widgets_fetch_only.
Qed.

Lemma on_ask_rag_fetch_only ext inp t :
  Forall fetch_only (events (on_ask_rag ext inp t)).
Proof.
  destruct (on_ask_rag_run ext inp t) as (evc & E & Hc).
  rewrite E. unfold events at 1. cbn [snd].
  destruct (str_truthy (query inp)); [|repeat constructor].
  apply Forall_app. split; [apply client_and_chunks_fetch_only|].
  destruct (outcome (client_and_chunks ext inp t)) as [[s [|c chunks]]|[cls msg]];
    try (repeat constructor).
  apply Forall_app. split.
  - eapply Forall_impl; [|exact Hc]. exact log_or_chat_fetch_only.
  - destruct (expected_answer _ _ _ _ _ _ _ _) as [[|a text]|];
      try (repeat constructor).
    apply chunk_widgets_fetch_only.
Qed.

(** X11. The Knowledge Bot tab always renders: [render_knowledge_bot_tab]
    returns normally whatever the buttons, the hosted services and the
    database do. *)
Theorem render_knowledge_bot_tab_never_raises ext inp t :
  outcome (render_knowledge_bot_tab ext inp t) = Return tt.
Proof.
  destruct (render_knowledge_bot_tab_run ext inp t) as (names & _ & E).
  rewrite E. reflexivity.
Qed.

(** X12. The Knowledge Bot tab is read-only: after
    [render_knowledge_bot_tab] the tables are what they were, and what
    reached the database are queries without a commit. *)
Theorem render_knowledge_bot_tab_read_only ext inp t :
  tables_after (render_knowledge_bot_tab ext inp t) = t
  /\ Forall fetch_only (events (render_knowledge_bot_tab ext inp t)).
Proof.
  destruct (render_knowledge_bot_tab_run ext inp t) as (names & _ & E).
  rewrite E. split; [reflexivity|].
  unfold events at 1. cbn [snd].
  apply Forall_app. split.
  - destruct (get_distinct_document_names_run ext t) as (evn & En & Hn).
    rewrite En. unfold events. simpl.
    eapply Forall_impl; [|exact Hn]. exact log_or_query_fetch_only.
  - destruct names as [|n names]; [repeat constructor|].
    apply Forall_app. split.
    + destruct (search_only inp); [apply on_search_only_fetch_only|constructor].
    + destruct (ask_rag inp); [apply on_ask_rag_fetch_only|constructor].
Qed.

(** X13. The button that shows the similar chunks never calls the chat
    service. *)
Theorem on_search_only_never_chats ext inp t :
  Forall (fun ev => is_chat_call ev = false) (events (on_search_only ext inp t)).
Proof.
  rewrite on_search_only_run. unfold events at 1. cbn [snd].
  destruct (str_truthy (query inp)); [|repeat constructor].
  apply Forall_app. split.
  - destruct (client_and_chunks_run ext inp t) as (ev1 & E & He).
    rewrite E. unfold events. simpl.
    eapply Forall_impl; [|exact He]. exact retrieval_event_no_chat.
  - destruct (outcome (client_and_chunks ext inp t)) as [[s [|c chunks]]|[cls msg]];
      try (repeat constructor).
    eapply Forall_impl; [|apply chunk_widgets_ui].
    intros ev. destruct ev; simpl; congruence.
Qed.

(** X14. With a blank question (after [strip]) neither button reaches a
    backend: beyond the events of the document list the tab only shows
    warnings. *)
Theorem blank_question_reaches_no_backend ext inp t :
  str_truthy (query inp) = false ->
  exists warnings,
    events (render_knowledge_bot_tab ext inp t)
    = events (get_distinct_document_names ext t) ++ warnings
    /\ Forall (fun ev => exists text, ev = Ui StWarning text) warnings.
Proof.
  intros Hq.
  destruct (render_knowledge_bot_tab_run ext inp t) as (names & _ & E).
  rewrite E. unfold events at 1. cbn [snd].
  eexists. split; [reflexivity|].
  destruct names as [|n names]; [repeat econstructor|].
  rewrite on_search_only_run.
  destruct (on_ask_rag_run ext inp t) as (evc & Er & _). rewrite Er.
  unfold events. cbn [snd]. rewrite Hq.
  destruct (search_only inp), (ask_rag inp); simpl; repeat econstructor.
Qed.

Lemma blank_question_reaches_no_backend_witness :
  exists warnings,
    events (render_knowledge_bot_tab demo_ext demo_inputs_blank demo_tables)
    = events (get_distinct_document_names demo_ext demo_tables) ++ warnings
    /\ Forall (fun ev => exists text, ev = Ui StWarning text) warnings.
Proof.
  exact (blank_question_reaches_no_backend demo_ext demo_inputs_blank demo_tables
           eq_refl).
Defined.

(** X15. When no document is listed (no job has a chunk, or the list
    query failed) the tab shows one warning and runs neither button: no
    embedding, search or chat call is made. *)
Theorem no_documents_no_search ext inp t :
  outcome (get_distinct_document_names ext t) = Return [] ->
  events (render_knowledge_bot_tab ext inp t)
  = events (get_distinct_document_names ext t)
    ++ [Ui StWarning "No documents with chunks found. Run the ingest pipeline first."].
Proof.
  intros Hnames.
  destruct (render_knowledge_bot_tab_run ext inp t) as (names & Hn & E).
  rewrite Hnames in Hn. inversion Hn; subst names.
  rewrite E. reflexivity.
Qed.

Lemma no_documents_no_search_witness :
  events (render_knowledge_bot_tab demo_ext demo_inputs no_tables)
  = events (get_distinct_document_names demo_ext no_tables)
    ++ [Ui StWarning "No documents with chunks found. Run the ingest pipeline first."].
Proof.
  exact (no_documents_no_search demo_ext demo_inputs no_tables eq_refl).
Defined.

Lemma filter_all {A : Type} (p : A -> bool) l :
  Forall (fun x => p x = true) l -> filter p l = l.
Proof.
  induction 1 as [|x l Hx _ IH]; simpl; [reflexivity|].
  rewrite Hx, IH. reflexivity.
Qed.

Lemma retrieval_event_no_ui ev : retrieval_event ev = true -> is_ui ev = false.
Proof. destruct ev; simpl; congruence. Qed.

Lemma log_or_chat_no_ui ev : log_or_chat ev = true -> is_ui ev = false.
Proof. destruct ev; simpl; congruence. Qed.

Lemma client_and_chunks_no_ui ext inp t :
  filter is_ui (events (client_and_chunks ext inp t)) = [].
Proof.
  destruct (client_and_chunks_run ext inp t) as (ev1 & E & He).
  rewrite E. unfold events. simpl. apply filter_none.
  eapply Forall_impl; [|exact He]. exact retrieval_event_no_ui.
Qed.

(** X16. When the retrieval found chunks but the chat adapter gives no
    answer ([None] or an empty reply), the only thing the RAG branch shows
    is the error that the answer failed: no answer and no source chunk. *)
Theorem rag_reports_missing_answer ext inp t s c chunks :
  str_truthy (query inp) = true ->
  outcome (client_and_chunks ext inp t) = Return (s, c :: chunks) ->
  no_answer (rag_answer ext inp s (c :: chunks)) ->
  filter is_ui (events (on_ask_rag ext inp t))
  = [Ui StError "Failed to get answer from LLM."].
Proof.
  intros Hq Hret Hno.
  destruct (on_ask_rag_run ext inp t) as (evc & E & Hc).
  rewrite E, Hq, Hret. unfold events at 1. cbn [snd].
  rewrite !filter_app, client_and_chunks_no_ui.
  rewrite (filter_none is_ui evc);
    [|eapply Forall_impl; [|exact Hc]; exact log_or_chat_no_ui].
  unfold rag_answer in Hno. destruct Hno as [Hno|Hno]; rewrite Hno; reflexivity.
Qed.

Lemma rag_reports_missing_answer_witness :
  filter is_ui (events (on_ask_rag demo_ext_chat_down demo_inputs demo_tables))
  = [Ui StError "Failed to get answer from LLM."].
Proof.
  refine (rag_reports_missing_answer demo_ext_chat_down demo_inputs demo_tables
            demo_session
            (mkQueryResult 1 2 "beta" (Some (12 # 100)) "guide.pdf")
            [mkQueryResult 1 3 "epsilon" (Some (45 # 100)) "guide.pdf"]
            eq_refl eq_refl _).
  left. reflexivity.
Defined.

(** X17. When the chat adapter gives a non-empty answer, the RAG branch
    shows the answer and then one widget per retrieved chunk, in the order
    of the retrieval, numbered from 1, each with the preview of its
    text. *)
Theorem rag_shows_answer_then_sources ext inp t s c chunks a text :
  str_truthy (query inp) = true ->
  outcome (client_and_chunks ext inp t) = Return (s, c :: chunks) ->
  rag_answer ext inp s (c :: chunks) = Some (String a text) ->
  filter is_ui (events (on_ask_rag ext inp t))
  = [Ui StSubheader "Answer"; Ui StWrite (String a text); Ui StDivider EmptyString;
     Ui StSubheader "📄 Source Chunks"]
    ++ chunk_widgets 1 (fun c => preview (qr_chunk_text c)) (c :: chunks).
Proof.
  intros Hq Hret Hans.
  destruct (on_ask_rag_run ext inp t) as (evc & E & Hc).
  rewrite E, Hq, Hret. unfold events at 1. cbn [snd].
  rewrite !filter_app, client_and_chunks_no_ui.
  rewrite (filter_none is_ui evc);
    [|eapply Forall_impl; [|exact Hc]; exact log_or_chat_no_ui].
  unfold rag_answer in Hans. rewrite Hans.
  rewrite filter_app. cbn [app filter is_ui].
  rewrite (filter_all is_ui (chunk_widgets _ _ _)); [reflexivity|].
  apply chunk_widgets_ui.
Qed.

Lemma rag_shows_answer_then_sources_witness :
  filter is_ui (events (on_ask_rag demo_ext demo_inputs demo_tables))
  = [Ui StSubheader "Answer"; Ui StWrite "X is a letter."; Ui StDivider EmptyString;
     Ui StSubheader "📄 Source Chunks"]
    ++ chunk_widgets 1 (fun c => preview (qr_chunk_text c)) demo_hits.
Proof.
  exact (rag_shows_answer_then_sources demo_ext demo_inputs demo_tables demo_session
           (mkQueryResult 1 2 "beta" (Some (12 # 100)) "guide.pdf")
           [mkQueryResult 1 3 "epsilon" (Some (45 # 100)) "guide.pdf"]
           "X"%char " is a letter." eq_refl eq_refl eq_refl).
Defined.

(** X18. The search button shows every retrieved chunk, in the order of
    the retrieval, numbered from 1, with its whole text, under a header
    that counts them. *)
Theorem search_only_shows_chunks_in_order ext inp t s c chunks :
  str_truthy (query inp) = true ->
  outcome (client_and_chunks ext inp t) = Return (s, c :: chunks) ->
  filter is_ui (events (on_search_only ext inp t))
  = Ui StSubheader ("📄 Top " ++ str_of_nat (List.length (c :: chunks)) ++ " Similar Chunks")
    :: chunk_widgets 1 qr_chunk_text (c :: chunks).
Proof.
  intros Hq Hret.
  rewrite on_search_only_run, Hq, Hret. unfold events at 1. cbn [snd].
  rewrite filter_app, client_and_chunks_no_ui.
  cbn [app filter is_ui]. f_equal.
  change (filter is_ui (chunk_widgets 1 qr_chunk_text (c :: chunks))
          = chunk_widgets 1 qr_chunk_text (c :: chunks)).
  apply filter_all. apply chunk_widgets_ui.
Qed.

Lemma search_only_shows_chunks_in_order_witness :
  filter is_ui (events (on_search_only demo_ext demo_inputs demo_tables))
  = Ui StSubheader "📄 Top 2 Similar Chunks"
    :: chunk_widgets 1 qr_chunk_text demo_hits.
Proof.
  exact (search_only_shows_chunks_in_order demo_ext demo_inputs demo_tables demo_session
           (mkQueryResult 1 2 "beta" (Some (12 # 100)) "guide.pdf")
           [mkQueryResult 1 3 "epsilon" (Some (45 # 100)) "guide.pdf"]
           eq_refl eq_refl).
Defined.

Lemma string_length_append s1 s2 :
  String.length (s1 ++ s2) = (String.length s1 + String.length s2)%nat.
Proof. induction s1 as [|a s1 IH]; simpl; [reflexivity|]. rewrite IH. reflexivity. Qed.

Lemma substring_0_all n s : (String.length s <= n)%nat -> substring 0 n s = s.
Proof.
  revert s. induction n as [|n IH]; intros [|a s]; simpl; intros H;
    try reflexivity; try lia.
  rewrite IH; [reflexivity|lia].
Qed.

Lemma substring_0_exact n s :
  (n <= String.length s)%nat -> String.length (substring 0 n s) = n.
Proof.
  revert s. induction n as [|n IH]; intros [|a s]; simpl; intros H;
    try reflexivity; try lia.
  rewrite IH; [reflexivity|lia].
Qed.

Lemma string_append_nil s : (s ++ EmptyString)%string = s.
Proof. induction s as [|a s IH]; simpl; [reflexivity|]. rewrite IH. reflexivity. Qed.

(** X19. The preview of a source chunk: a text of at most 1000 characters
    is shown whole; a longer one is cut to its first 1000 characters
    followed by three dots. *)
Theorem preview_bounds text :
  ((String.length text <= 1000)%nat -> preview text = text)
  /\ ((1000 < String.length text)%nat ->
      preview text = (substring 0 1000 text ++ "...")%string
      /\ String.length (preview text) = 1003%nat).
Proof.
  unfold preview, str_take. split; intros H.
  - assert (Hlt : Nat.ltb 1000 (String.length text) = false)
      by (apply Nat.ltb_ge; exact H).
    rewrite Hlt, string_append_nil. apply substring_0_all. exact H.
  - assert (Hlt : Nat.ltb 1000 (String.length text) = true)
      by (apply Nat.ltb_lt; exact H).
    rewrite Hlt. split; [reflexivity|].
    rewrite string_length_append, substring_0_exact; [reflexivity|lia].
Qed.

(** ** The database gateway *)

(** X20. Without [commit], [execute_query] sends the database exactly the
    given statement, once, and never a commit; when no connection can be
    acquired it sends nothing. *)
Theorem execute_query_sends_no_commit_unasked
    ext R (s : Statement R) fetch_one fetch_all t :
  filter is_db_call (events (execute_query ext s fetch_one fetch_all false t))
  = match acquire_fault ext (stmt_text s) with
    | Some _ => []
    | None => [CursorExecute (stmt_kind s) (stmt_text s) (stmt_params s)]
    end.
Proof.
  unfold execute_query.
  destruct (acquire_fault ext (stmt_text s)); [reflexivity|].
  run_step.
  destruct (cursor_execute ext s t) as [[rs t']|e]; simpl; [|reflexivity].
  destruct fetch_one; simpl.
  - destruct (fetchone rs); reflexivity.
  - destruct fetch_all; simpl; [destruct (fetchall rs)|]; reflexivity.
Qed.

(** X21. The fetch mode of [execute_query] on a query that runs:
    [fetch_one] wins over [fetch_all] and gives the first row, or [None]
    for an empty result set; [fetch_all] alone gives all rows; with neither
    the result is [None]. *)
Theorem execute_query_fetch_modes
    ext R text params (rows : Tables -> Result (list R)) l fetch_all commit t :
  acquire_fault ext text = None ->
  execute_fault ext text = None ->
  rows t = Return l ->
  outcome (execute_query ext (Select text params rows) true fetch_all commit t)
  = Return (FetchedOne (hd_error l))
  /\ outcome (execute_query ext (Select text params rows) false true commit t)
     = Return (FetchedAll l)
  /\ outcome (execute_query ext (Select text params rows) false false commit t)
     = Return FetchedNone.
Proof.
  intros Ha He Hr. unfold execute_query, cursor_execute. cbn [stmt_text stmt_kind stmt_params].
  rewrite Ha. run_step. rewrite He, Hr.
  destruct commit, fetch_all; simpl; auto.
Qed.

Lemma execute_query_fetch_modes_witness :
  outcome (execute_query demo_ext (count_statement "empty.pdf") true true false
                         demo_tables) = Return (FetchedOne (Some 0%Z))
  /\ outcome (execute_query demo_ext (count_statement "empty.pdf") false true false
                            demo_tables) = Return (FetchedAll [0%Z])
  /\ outcome (execute_query demo_ext (count_statement "empty.pdf") false false false
                            demo_tables) = Return FetchedNone.
Proof.
  exact (execute_query_fetch_modes demo_ext Z count_sql
           [("doc_name"%string, BindStr "empty.pdf")] (count_rows "empty.pdf")
           [0%Z] true false demo_tables eq_refl eq_refl eq_refl).
Defined.

Lemma execute_procedure_run ext (s : Statement unit) t :
  execute_procedure ext s t
  = match acquire_fault ext (stmt_text s) with
    | Some e => (Raise e, t, [])
    | None =>
        match cursor_execute ext s t with
        | Return (_, t') =>
            (Return true, t',
             [CursorExecute (stmt_kind s) (stmt_text s) (stmt_params s); ConnCommit])
        | Raise e =>
            (Raise e, t,
             [CursorExecute (stmt_kind s) (stmt_text s) (stmt_params s);
              Log ERROR "execute_procedure failed: %s"])
        end
    end.
Proof.
  unfold execute_procedure.
  destruct (acquire_fault ext (stmt_text s)); [reflexivity|].
  run_step. destruct (cursor_execute ext s t) as [[rs t']|e]; reflexivity.
Qed.

(** X22. [execute_procedure] never returns [False]: it returns [True], and
    only after it has sent the statement and then one commit.  When the
    statement fails no commit is sent: an error is logged and the call
    raises.  When no connection can be acquired nothing is sent and the
    call raises. *)
Theorem execute_procedure_true_after_commit ext (s : Statement unit) t :
  (forall b,
     outcome (execute_procedure ext s t) = Return b ->
     b = true
     /\ filter is_db_call (events (execute_procedure ext s t))
        = [CursorExecute (stmt_kind s) (stmt_text s) (stmt_params s); ConnCommit])
  /\ (forall e,
        acquire_fault ext (stmt_text s) = None ->
        cursor_execute ext s t = Raise e ->
        (exists e', outcome (execute_procedure ext s t) = Raise e')
        /\ filter is_commit (events (execute_procedure ext s t)) = []
        /\ In (Log ERROR "execute_procedure failed: %s")
              (events (execute_procedure ext s t)))
  /\ (forall e,
        acquire_fault ext (stmt_text s) = Some e ->
        (exists e', outcome (execute_procedure ext s t) = Raise e')
        /\ events (execute_procedure ext s t) = []).
Proof.
  rewrite execute_procedure_run. split; [|split].
  - intros b H.
    destruct (acquire_fault ext (stmt_text s)); [discriminate H|].
    destruct (cursor_execute ext s t) as [[rs t']|e]; [|discriminate H].
    unfold outcome in H. simpl in H. inversion H. split; reflexivity.
  - intros e Ha He. rewrite Ha, He. split; [exists e; reflexivity|].
    split; [reflexivity|]. right. left. reflexivity.
  - intros e Ha. rewrite Ha. split; [exists e; reflexivity|reflexivity].
Qed.

(** ** The helpers of the Admin tab *)

Lemma toggle_scheduler_job_run ext job_name enable t :
  toggle_scheduler_job ext job_name enable t
  = match execute_procedure ext
            (Block (toggle_text enable) [("job_name"%string, BindStr job_name)]) t with
    | (Return _, t1, ev1) => (Return true, t1, ev1)
    | (Raise (Exception _ msg), t1, ev1) =>
        (Return false, t1,
         ev1 ++ [Log ERROR "toggle_scheduler_job failed: %s";
                 Ui StError ("Failed to toggle job: " ++ msg)])
    end.
Proof.
  unfold toggle_scheduler_job, bind, attempt.
  replace ("BEGIN DBMS_SCHEDULER." ++ (if enable then "ENABLE" else "DISABLE")
           ++ "(:job_name, force => TRUE); END;")%string
    with (toggle_text enable) by (destruct enable; reflexivity).
  destruct (execute_procedure ext _ t) as [[[b|[cls msg]] t1] ev1]; run_step.
  - rewrite app_nil_r. reflexivity.
  - reflexivity.
Qed.

(** X23. [toggle_scheduler_job] never raises.  It returns [True] only
    after the block and one commit were sent; when the block fails it
    returns [False] and no commit is sent; whenever it returns [False] it
    logs and shows the error.  The only statement it sends is the ENABLE
    block (or the DISABLE block), whose text does not depend on the job
    name: the name travels as the bind value [job_name]. *)
Theorem toggle_scheduler_job_outcome ext job_name enable t :
  exists b,
    outcome (toggle_scheduler_job ext job_name enable t) = Return b
    /\ (b = true ->
        filter is_commit (events (toggle_scheduler_job ext job_name enable t))
        = [ConnCommit])
    /\ (forall e,
          @cursor_execute ext unit
            (Block (toggle_text enable) [("job_name"%string, BindStr job_name)]) t
          = Raise e ->
          b = false
          /\ filter is_commit (events (toggle_scheduler_job ext job_name enable t)) = [])
    /\ (b = false ->
        In (Log ERROR "toggle_scheduler_job failed: %s")
           (events (toggle_scheduler_job ext job_name enable t))
        /\ exists msg,
             In (Ui StError ("Failed to toggle job: " ++ msg))
                (events (toggle_scheduler_job ext job_name enable t)))
    /\ Forall (only_block (toggle_text enable) [("job_name"%string, BindStr job_name)])
              (events (toggle_scheduler_job ext job_name enable t)).
Proof.
  rewrite toggle_scheduler_job_run, execute_procedure_run.
  cbn [stmt_text stmt_kind stmt_params].
  destruct (acquire_fault ext (toggle_text enable)) as [[cls msg]|].
  - exists false. split; [reflexivity|]. split; [discriminate|].
    split; [intros e _; split; reflexivity|].
    split; [|repeat constructor].
    intros _. split; [left; reflexivity|]. exists msg. right. left. reflexivity.
  - destruct (cursor_execute ext _ t) as [[rs t']|[cls msg]].
    + exists true. split; [reflexivity|]. split; [reflexivity|].
      split; [discriminate|]. split; [discriminate|]. repeat constructor.
    + exists false. split; [reflexivity|]. split; [discriminate|].
      split; [intros e _; split; reflexivity|].
      split; [|repeat constructor].
      intros _. unfold events. simpl. split; [auto|]. exists msg. auto.
Qed.

Lemma run_procedure_run ext proc_name t :
  run_procedure ext proc_name t
  = match execute_procedure ext (Block ("BEGIN " ++ proc_name ++ "; END;") []) t with
    | (Return _, t1, ev1) => (Return true, t1, ev1)
    | (Raise (Exception _ msg), t1, ev1) =>
        (Return false, t1,
         ev1 ++ [Log ERROR "run_procedure %s failed: %s";
                 Ui StError ("Error running " ++ proc_name ++ ": " ++ msg)])
    end.
Proof.
  unfold run_procedure, bind, attempt.
  destruct (execute_procedure ext _ t) as [[[b|[cls msg]] t1] ev1]; run_step.
  - rewrite app_nil_r. reflexivity.
  - reflexivity.
Qed.

(** X24. [run_procedure] never raises.  It sends one block, the procedure
    name between BEGIN and END with no bind value.  It returns [True] only
    after the block and one commit were sent; when the block fails it
    returns [False] and no commit is sent; whenever it returns [False] it
    logs and shows the error. *)
Theorem run_procedure_outcome ext proc_name t :
  exists b,
    outcome (run_procedure ext proc_name t) = Return b
    /\ (b = true ->
        filter is_commit (events (run_procedure ext proc_name t)) = [ConnCommit])
    /\ (forall e,
          @cursor_execute ext unit (Block ("BEGIN " ++ proc_name ++ "; END;") []) t
          = Raise e ->
          b = false
          /\ filter is_commit (events (run_procedure ext proc_name t)) = [])
    /\ (b = false ->
        In (Log ERROR "run_procedure %s failed: %s")
           (events (run_procedure ext proc_name t))
        /\ exists msg,
             In (Ui StError ("Error running " ++ proc_name ++ ": " ++ msg))
                (events (run_procedure ext proc_name t)))
    /\ Forall (only_block ("BEGIN " ++ proc_name ++ "; END;") [])
              (events (run_procedure ext proc_name t)).
Proof.
  rewrite run_procedure_run, execute_procedure_run.
  cbn [stmt_text stmt_kind stmt_params].
  destruct (acquire_fault ext _) as [[cls msg]|].
  - exists false. split; [reflexivity|]. split; [discriminate|].
    split; [intros e _; split; reflexivity|].
    split; [|repeat constructor].
    intros _. split; [left; reflexivity|]. exists msg. right. left. reflexivity.
  - destruct (cursor_execute ext _ t) as [[rs t']|[cls msg]].
    + exists true. split; [reflexivity|]. split; [reflexivity|].
      split; [discriminate|]. split; [discriminate|]. repeat constructor.
    + exists false. split; [reflexivity|]. split; [discriminate|].
      split; [intros e _; split; reflexivity|].
      split; [|repeat constructor].
      intros _. unfold events. simpl. split; [auto|]. exists msg. auto.
Qed.

Lemma select_all_run ext R text params (rows : Tables -> Result (list R)) t :
  exists evs,
    execute_query ext (Select text params rows) false true false t
    = (match acquire_fault ext text with
       | Some e => Raise e
       | None =>
           match execute_fault ext text with
           | Some e => Raise e
           | None =>
               match rows t with
               | Return l => Return (FetchedAll l)
               | Raise e => Raise e
               end
           end
       end, t, evs)
    /\ Forall (fun ev => log_or_query ev = true) evs.
Proof.
  destruct (execute_query_run ext R (Select text params rows) false true t eq_refl)
    as (evs & E & _).
  pose proof (execute_query_log_or_query ext R (Select text params rows)
                false true t eq_refl) as He.
  rewrite E in He. unfold events in He. simpl in He.
  rewrite execute_query_select in E.
  exists evs. split; assumption.
Qed.

(** The outcome of the query behind [get_scheduler_jobs]. *)
Lemma get_scheduler_jobs_run ext admin t :
  exists evs,
    get_scheduler_jobs ext admin t
    = (Return (match outcome (execute_query ext
                                (Select scheduler_jobs_sql [] (scheduler_rows admin))
                                false true false t) with
               | Return fetched => map job_of_row (rows_or_empty fetched)
               | Raise _ => []
               end), t, evs)
    /\ Forall fetch_only evs.
Proof.
  unfold get_scheduler_jobs.
  destruct (select_all_run ext SchedulerRow scheduler_jobs_sql []
              (scheduler_rows admin) t) as (evs & E & He).
  unfold try_except, bind. rewrite E. unfold outcome. cbn [fst snd].
  assert (Hf : Forall fetch_only evs)
    by (eapply Forall_impl; [|exact He]; exact log_or_query_fetch_only).
  destruct (match acquire_fault ext scheduler_jobs_sql with
            | Some e => Raise e
            | None => _
            end) as [fetched|e]; run_step.
  - eexists. split; [reflexivity|]. rewrite app_nil_r. exact Hf.
  - eexists. split; [reflexivity|]. apply Forall_app. split; [exact Hf|repeat constructor].
Qed.

(** X25. [get_scheduler_jobs] never raises and is read-only.  When its
    query fails it returns the empty list; otherwise one entry per row, in
    the order of the rows, enabled exactly for the rows whose [enabled]
    column is the string TRUE. *)
Theorem get_scheduler_jobs_outcome ext admin t :
  exists jobs,
    outcome (get_scheduler_jobs ext admin t) = Return jobs
    /\ tables_after (get_scheduler_jobs ext admin t) = t
    /\ Forall fetch_only (events (get_scheduler_jobs ext admin t))
    /\ (forall e,
          outcome (execute_query ext (Select scheduler_jobs_sql [] (scheduler_rows admin))
                                 false true false t) = Raise e ->
          jobs = [])
    /\ (forall rows,
          outcome (execute_query ext (Select scheduler_jobs_sql [] (scheduler_rows admin))
                                 false true false t) = Return (FetchedAll rows) ->
          map sj_job_name jobs = map sr_job_name rows
          /\ map sj_enabled jobs
             = map (fun r => String.eqb (sr_enabled r) "TRUE") rows).
Proof.
  destruct (get_scheduler_jobs_run ext admin t) as (evs & E & He).
  rewrite E. eexists. split; [reflexivity|]. split; [reflexivity|].
  split; [exact He|]. split.
  - intros e H. rewrite H. reflexivity.
  - intros rows H. rewrite H. cbn [rows_or_empty].
    rewrite !map_map. split; reflexivity.
Qed.

Lemma dict_get_set_same {V : Type} (d : Dict V) k v :
  dict_get (dict_set d k v) k = Some v.
Proof.
  induction d as [|[k' v'] d IH]; simpl.
  - rewrite String.eqb_refl. reflexivity.
  - destruct (String.eqb k' k) eqn:E; simpl; rewrite E; [reflexivity|exact IH].
Qed.

Lemma dict_get_set_other {V : Type} (d : Dict V) k v k' :
  k' <> k -> dict_get (dict_set d k v) k' = dict_get d k'.
Proof.
  intros Hne. induction d as [|[k0 v0] d IH]; simpl.
  - destruct (String.eqb k k') eqn:E; [|reflexivity].
    apply String.eqb_eq in E. congruence.
  - destruct (String.eqb k0 k) eqn:E; simpl.
    + apply String.eqb_eq in E. subst k0.
      destruct (String.eqb k k') eqn:E'; [|reflexivity].
      apply String.eqb_eq in E'. congruence.
    + destruct (String.eqb k0 k'); [reflexivity|exact IH].
Qed.

Lemma fold_dict_set_get {V : Type} (rows : list (string * V)) (d : Dict V) k :
  NoDup (map fst rows) ->
  dict_get (fold_left (fun d r => dict_set d (fst r) (snd r)) rows d) k
  = match find (fun r => String.eqb (fst r) k) rows with
    | Some r => Some (snd r)
    | None => dict_get d k
    end.
Proof.
  revert d. induction rows as [|[k0 v0] rows IH]; intros d Hnd; simpl; [reflexivity|].
  inversion Hnd as [|? ? Hnotin Hnd']; subst.
  rewrite (IH _ Hnd').
  destruct (String.eqb k0 k) eqn:E.
  - apply String.eqb_eq in E. subst k0.
    destruct (find (fun r => String.eqb (fst r) k) rows) as [r|] eqn:Ef.
    + exfalso. apply find_some in Ef. destruct Ef as (Hin & Hk).
      apply String.eqb_eq in Hk. apply Hnotin. rewrite <- Hk.
      apply in_map. exact Hin.
    + apply dict_get_set_same.
  - destruct (find _ rows); [reflexivity|].
    apply dict_get_set_other. intros Heq. subst k0.
    rewrite String.eqb_refl in E. discriminate.
Qed.

Lemma insert_by_decode_perm r l : Permutation (insert_by_decode r l) (r :: l).
Proof.
  induction l as [|x l IH]; simpl; [apply Permutation_refl|].
  destruct (Z.leb _ _); [apply Permutation_refl|].
  eapply Permutation_trans; [apply perm_skip; exact IH|apply perm_swap].
Qed.

Lemma sort_by_decode_perm l : Permutation (fold_right insert_by_decode [] l) l.
Proof.
  induction l as [|r l IH]; simpl; [constructor|].
  eapply Permutation_trans; [apply insert_by_decode_perm|]. apply perm_skip. exact IH.
Qed.

(** The dict of the rows of [summary_q]. *)
Lemma summary_dict_get t rows s :
  summary_rows t = Return rows ->
  dict_get (dict_of_rows rows) s
  = if (0 <? jobs_in_status t s)%Z then Some (jobs_in_status t s) else None.
Proof.
  unfold summary_rows, jobs_in_status. intros H. inversion H as [Hrows]. clear H.
  set (statuses := map status (doc_ingest_jobs t)).
  set (groups := map (fun s => (s, Z.of_nat (count_occ string_dec statuses s)))
                     (nodup string_dec statuses)).
  pose proof (sort_by_decode_perm groups) as Hperm.
  assert (Hkeys : map fst groups = nodup string_dec statuses).
  { unfold groups. rewrite map_map. simpl. apply map_id. }
  assert (Hnd : NoDup (map fst (fold_right insert_by_decode [] groups))).
  { eapply Permutation_NoDup; [apply Permutation_map, Permutation_sym, Hperm|].
    rewrite Hkeys. apply NoDup_nodup. }
  unfold dict_of_rows. rewrite (fold_dict_set_get _ [] s Hnd). simpl.
  destruct (find (fun r => String.eqb (fst r) s) (fold_right insert_by_decode [] groups))
    as [[k v]|] eqn:Ef.
  - apply find_some in Ef. destruct Ef as (Hin & Hk).
    simpl in Hk. apply String.eqb_eq in Hk. subst k.
    apply (Permutation_in _ Hperm) in Hin.
    unfold groups in Hin. apply in_map_iff in Hin.
    destruct Hin as (s' & Heq & Hs'). inversion Heq; subst s' v. clear Heq.
    apply nodup_In in Hs'.
    apply (count_occ_In string_dec) in Hs'.
    simpl.
    destruct (0 <? Z.of_nat (count_occ string_dec statuses s))%Z eqn:E;
      [reflexivity|].
    apply Z.ltb_ge in E. lia.
  - destruct (0 <? Z.of_nat (count_occ string_dec statuses s))%Z eqn:E;
      [|reflexivity].
    exfalso. apply Z.ltb_lt in E.
    assert (Hs : In s statuses).
    { apply (count_occ_In string_dec). lia. }
    assert (Hin : In (s, Z.of_nat (count_occ string_dec statuses s))
                     (fold_right insert_by_decode [] groups)).
    { apply (Permutation_in _ (Permutation_sym Hperm)).
      unfold groups. apply in_map_iff. exists s. split; [reflexivity|].
      apply nodup_In. exact Hs. }
    apply (find_none _ _ Ef) in Hin. simpl in Hin.
    rewrite String.eqb_refl in Hin. discriminate.
Qed.

Lemma get_ingest_job_status_run ext admin t :
  exists evs,
    get_ingest_job_status ext admin t
    = (Return
         match outcome (execute_query ext (Select summary_q [] summary_rows)
                                      false true false t) with
         | Raise _ => {| summary := []; recent := [] |}
         | Return fetched_summary =>
             match outcome (execute_query ext (Select recent_q [] (recent_rows admin))
                                          false true false t) with
             | Raise _ => {| summary := []; recent := [] |}
             | Return fetched_recent =>
                 {| summary := dict_of_rows (rows_or_empty fetched_summary);
                    recent := rows_or_empty fetched_recent |}
             end
         end, t, evs)
    /\ Forall fetch_only evs.
Proof.
  unfold get_ingest_job_status.
  destruct (execute_query_run ext _ (Select summary_q [] summary_rows) false true t eq_refl)
    as (ev1 & E1 & H1).
  destruct (execute_query_run ext _ (Select recent_q [] (recent_rows admin))
              false true t eq_refl) as (ev2 & E2 & H2).
  assert (F1 : Forall fetch_only ev1)
    by (eapply Forall_impl; [|exact H1]; exact retrieval_event_fetch_only).
  assert (F2 : Forall fetch_only ev2)
    by (eapply Forall_impl; [|exact H2]; exact retrieval_event_fetch_only).
  unfold try_except, bind. rewrite E1.
  destruct (outcome (execute_query ext (Select summary_q [] summary_rows)
                                   false true false t)) as [fs|e1].
  - rewrite E2.
    destruct (outcome (execute_query ext (Select recent_q [] (recent_rows admin))
                                     false true false t)) as [fr|e2]; run_step.
    + eexists. split; [reflexivity|].
      rewrite app_nil_r. apply Forall_app. split; assumption.
    + eexists. split; [reflexivity|].
      repeat (apply Forall_app; split); try assumption; repeat constructor.
  - run_step. eexists. split; [reflexivity|].
    apply Forall_app. split; [assumption|repeat constructor].
Qed.

(** X26. [get_ingest_job_status] never raises and is read-only, and it is
    all or nothing: when the query for the recent jobs fails, the summary
    is returned empty as well, even if its own query succeeded. *)
Theorem get_ingest_job_status_all_or_nothing ext admin t e :
  outcome (execute_query ext (Select recent_q [] (recent_rows admin))
                         false true false t) = Raise e ->
  outcome (get_ingest_job_status ext admin t)
  = Return {| summary := []; recent := [] |}
  /\ tables_after (get_ingest_job_status ext admin t) = t
  /\ Forall fetch_only (events (get_ingest_job_status ext admin t)).
Proof.
  intros Hrecent.
  destruct (get_ingest_job_status_run ext admin t) as (evs & E & He).
  rewrite E, Hrecent. split; [|split; [reflexivity|exact He]].
  unfold outcome at 1. cbn [fst].
  destruct (outcome (execute_query ext (Select summary_q [] summary_rows)
                                   false true false t)); reflexivity.
Qed.

Lemma get_ingest_job_status_all_or_nothing_witness :
  outcome (execute_query demo_ext (Select summary_q [] summary_rows)
                         false true false demo_tables)
  = Return (FetchedAll [("CHUNKED"%string, 1%Z); ("DONE"%string, 2%Z)])
  /\ outcome (get_ingest_job_status demo_ext demo_admin demo_tables)
     = Return {| summary := []; recent := [] |}.
Proof.
  split; [reflexivity|].
  exact (proj1 (get_ingest_job_status_all_or_nothing demo_ext demo_admin demo_tables
                  (Exception "DatabaseError" "ORA-00904") eq_refl)).
Defined.

(** X27. When both queries run, the summary of [get_ingest_job_status]
    maps every status that occurs among the jobs to the number of jobs in
    it, and has no other key; the recent jobs are the rows of the second
    query. *)
Theorem get_ingest_job_status_summary ext admin t rows :
  acquire_fault ext summary_q = None ->
  execute_fault ext summary_q = None ->
  outcome (execute_query ext (Select recent_q [] (recent_rows admin))
                         false true false t) = Return (FetchedAll rows) ->
  exists st,
    outcome (get_ingest_job_status ext admin t) = Return st
    /\ recent st = rows
    /\ forall s,
         dict_get (summary st) s
         = if (0 <? jobs_in_status t s)%Z then Some (jobs_in_status t s) else None.
Proof.
  intros Ha He Hrecent.
  destruct (get_ingest_job_status_run ext admin t) as (evs & E & _).
  rewrite E, Hrecent, execute_query_select, Ha, He.
  unfold outcome at 1. cbn [fst].
  destruct (summary_rows t) as [srows|e] eqn:Es; [|discriminate Es].
  eexists. split; [reflexivity|]. split; [reflexivity|].
  intros s. cbn [summary rows_or_empty]. apply (summary_dict_get t srows s Es).
Qed.

Lemma get_ingest_job_status_summary_witness :
  exists st,
    outcome (get_ingest_job_status demo_ext demo_admin_ok demo_tables) = Return st
    /\ recent st
       = [mkRecentRow 3 "other.pdf" "DONE" 1 (Some "2025-01-01 00:00:00"%string) None]
    /\ forall s,
         dict_get (summary st) s
         = if (0 <? jobs_in_status demo_tables s)%Z
           then Some (jobs_in_status demo_tables s) else None.
Proof.
  exact (get_ingest_job_status_summary demo_ext demo_admin_ok demo_tables
           [mkRecentRow 3 "other.pdf" "DONE" 1 (Some "2025-01-01 00:00:00"%string) None]
           eq_refl eq_refl eq_refl).
Defined.

(** ** The hosted inference clients *)

(** X28. The configuration [init_client] hands to the client constructor
    is the given one with the key [region] set to the value of OCI_REGION,
    or to us-chicago-1 when that variable is unset: a region already in
    the configuration is overridden, every other key is kept. *)
Theorem init_client_sets_region ext config t :
  exists client_config,
    init_client ext config t = (new_inference_client ext client_config, t, [])
    /\ dict_get client_config "region"
       = Some (match getenv ext "OCI_REGION" with
               | Some region => region
               | None => "us-chicago-1"%string
               end)
    /\ forall k, k <> "region"%string -> dict_get client_config k = dict_get config k.
Proof.
  unfold init_client, lift. eexists. split; [reflexivity|]. split.
  - rewrite dict_get_set_same. reflexivity.
  - intros k Hk. apply dict_get_set_other. exact Hk.
Qed.

(** X29. [chat_with_context] leaves the tables alone and emits only log
    records and at most one chat call: none when the client cannot be
    built, otherwise exactly one, carrying the prompt of the context and
    the question. *)
Theorem chat_with_context_one_call
    ext config comp context question model_id max_tokens temperature t :
  tables_after (chat_with_context ext config comp context question model_id
                                  max_tokens temperature t) = t
  /\ Forall (fun ev => log_or_chat ev = true)
            (events (chat_with_context ext config comp context question model_id
                                       max_tokens temperature t))
  /\ filter is_chat_call
            (events (chat_with_context ext config comp context question model_id
                                       max_tokens temperature t))
     = match new_inference_client ext
               (dict_set config "region"
                         (getenv_default ext "OCI_REGION" DEFAULT_OCI_REGION)) with
       | Return _ => [ChatCall (prompt_of context question)]
       | Raise _ => []
       end.
Proof.
  unfold chat_with_context. run_step.
  destruct (new_inference_client ext _) as [client|e]; simpl.
  - destruct (chat ext client _) as [response|e]; simpl.
    + destruct (probe_chat response); simpl;
        (split; [reflexivity|split; [events_ok|reflexivity]]).
    + split; [reflexivity|split; [events_ok|reflexivity]].
  - split; [reflexivity|split; [events_ok|reflexivity]].
Qed.

(** X30. The reply of the model is looked up in five places; the chat
    adapter finds none (and falls to its warning and [None]) exactly when
    the response has no [content], its [data] has no [content], and the
    [chat_response] of the data has neither [message.content], [content]
    nor [text]. *)
Theorem probe_chat_none_iff response :
  probe_chat response = None <-> no_reply_path response.
Proof.
  unfold probe_chat, probe_chat_resp, no_reply_path.
  destruct response as [rd rc].
  destruct rd as [[dcr dc]|]; [destruct dcr as [[m cc ct]|]; [destruct m as [[mc]|]|]|];
    simpl;
    repeat match goal with
           | x : Attr _ |- _ => destruct x
           end;
    simpl; split; intros H; try discriminate; try reflexivity;
    repeat match goal with
           | H : _ /\ _ |- _ => destruct H
           | H : Some _ = None |- _ => discriminate H
           end;
    repeat split; auto.
Qed.
